(** * Dense retrieval set-up: corpus loading, batched embedding, flat L2 index

    A shallow embedding of [dense_retrieval_faiss.py].  The script loads
    Wikipedia articles from JSON-lines files, embeds their texts chunk by
    chunk with a sentence-embedding model, stacks the chunk outputs into one
    matrix, adds the matrix to a flat exact L2 index, saves the index, the
    id list and the matrix, and finally runs one test query.

    Python values are modelled by the inductive type [pyval], exceptions by
    [exn] with the error monad [result], float32 and float64 numbers by the
    binary floating-point numbers of [SpecFloat].  A [str] is kept as its
    UTF-8 encoding, a lone surrogate in its three-byte form, so that the
    code points of a string are the groups of a leading byte and the
    continuation bytes that follow it.  The library calls of the
    script ([json.loads], the file system, [SentenceTransformer.encode],
    numpy's [vstack], FAISS's [IndexFlatL2]) are modelled by their documented
    behaviour; the JSON decoder, the file system and the embedding model are
    parameters. *)

From Stdlib Require Import List String Ascii ZArith Bool Arith Lia.
From Stdlib Require Import Permutation Sorted.
From Stdlib Require Import Floats.SpecFloat.
Import ListNotations.

Local Open Scope string_scope.
Local Open Scope list_scope.
Local Open Scope nat_scope.

(** ** Exceptions and the error monad *)

(** The exception classes the script meets, each a subclass of
    [Exception]; a constructor stands for the class itself, so
    [ValueError] is not the [JSONDecodeError] or the [UnicodeDecodeError]
    derived from it. *)
Inductive exn : Type :=
| JSONDecodeError
| KeyError (key : string)
| AttributeError
| TypeError
| IndexError
| ValueError
| AssertionError
| OSError
| UnicodeDecodeError
| EOFError
| RecursionError
| OtherException (class_name : string).

Inductive result (A : Type) : Type :=
| Ok (a : A)
| Raise (e : exn).

Arguments Ok {A} a.
Arguments Raise {A} e.

Definition bind {A B : Type} (m : result A) (f : A -> result B) : result B :=
  match m with
  | Ok a => f a
  | Raise e => Raise e
  end.

Notation "x <- m ;; k" := (bind m (fun x => k))
  (at level 61, m at next level, right associativity).

(** ** Python values *)

(** The values [json.loads] can return.  A [dict] is kept as the list of its
    items in insertion order; its keys are distinct. *)
#[warnings="-register-all"]
Inductive pyval : Type :=
| PNone
| PBool (b : bool)
| PInt (n : Z)
| PFloat (x : spec_float)
| PStr (s : string)
| PList (l : list pyval)
| PDict (d : list (string * pyval)).

Module Py.

Fixpoint lookup (k : string) (d : list (string * pyval)) : option pyval :=
  match d with
  | [] => None
  | (k', v) :: d' => if (k' =? k)%string then Some v else lookup k d'
  end.

(** [doc.get(k, default)]: only a dict has the method. *)
Definition get (doc : pyval) (k : string) (default : pyval) : result pyval :=
  match doc with
  | PDict d => match lookup k d with
               | Some v => Ok v
               | None => Ok default
               end
  | _ => Raise AttributeError
  end.

(** [doc[k]] with a string key. *)
Definition getitem (doc : pyval) (k : string) : result pyval :=
  match doc with
  | PDict d => match lookup k d with
               | Some v => Ok v
               | None => Raise (KeyError k)
               end
  | _ => Raise TypeError
  end.

(** The bytes 128 to 191 continue a code point. *)
Definition is_continuation (c : ascii) : bool :=
  let n := nat_of_ascii c in
  ((128 <=? n) && (n <=? 191))%nat.

Definition starts_with_continuation (s : string) : bool :=
  match s with
  | EmptyString => false
  | String c _ => is_continuation c
  end.

(** The code points of a string, each as the string of its bytes. *)
Fixpoint code_points (s : string) : list string :=
  match s with
  | EmptyString => []
  | String c s' =>
      if starts_with_continuation s' then
        match code_points s' with
        | cp :: rest => String c cp :: rest
        | [] => [String c EmptyString]
        end
      else String c EmptyString :: code_points s'
  end.

(** What iterating a [str] delivers: its characters, one string each. *)
Definition chars (s : string) : list pyval := map PStr (code_points s).

(** What [for item in v] iterates over: the elements of a list, the
    one-character strings of a string, the keys of a dict; anything else
    is not iterable. *)
Definition iter (v : pyval) : result (list pyval) :=
  match v with
  | PList l => Ok l
  | PStr s => Ok (chars s)
  | PDict d => Ok (map (fun kv => PStr (fst kv)) d)
  | _ => Raise TypeError
  end.

(** [l[idx]] on a list: negative indices count from the end. *)
Definition list_getitem {A : Type} (l : list A) (idx : Z) : result A :=
  let n := Z.of_nat (List.length l) in
  let pos := if (idx <? 0)%Z then (idx + n)%Z else idx in
  if ((0 <=? pos) && (pos <? n))%Z
  then match nth_error l (Z.to_nat pos) with
       | Some a => Ok a
       | None => Raise IndexError
       end
  else Raise IndexError.

(** Numbers compare across [bool], [int] and [float] by value. *)
Inductive num : Type :=
| NInt (n : Z)
| NFloat (x : spec_float).

Definition as_num (v : pyval) : option num :=
  match v with
  | PBool b => Some (NInt (if b then 1 else 0)%Z)
  | PInt n => Some (NInt n)
  | PFloat x => Some (NFloat x)
  | _ => None
  end.

Definition int_float_eq (n : Z) (x : spec_float) : bool :=
  match x with
  | S754_zero _ => (n =? 0)%Z
  | S754_finite s m e =>
      let v := if s then Z.neg m else Z.pos m in
      if (0 <=? e)%Z then (n =? v * 2 ^ e)%Z else (n * 2 ^ (- e) =? v)%Z
  | _ => false
  end.

Definition num_eq (a b : num) : bool :=
  match a, b with
  | NInt n, NInt m => (n =? m)%Z
  | NFloat x, NFloat y => SFeqb x y
  | NInt n, NFloat x => int_float_eq n x
  | NFloat x, NInt n => int_float_eq n x
  end.

(** [a == b] on decoded JSON values. *)
Fixpoint eq (a b : pyval) {struct a} : bool :=
  match a, b with
  | PNone, PNone => true
  | PStr s, PStr t => (s =? t)%string
  | PList l, PList m =>
      (fix all2 (l m : list pyval) {struct l} : bool :=
         match l, m with
         | [], [] => true
         | x :: l', y :: m' => eq x y && all2 l' m'
         | _, _ => false
         end) l m
  | PDict d, PDict e =>
      (List.length d =? List.length e)%nat &&
      (fix items (d : list (string * pyval)) {struct d} : bool :=
         match d with
         | [] => true
         | (k, v) :: d' =>
             match lookup k e with
             | Some w => eq v w
             | None => false
             end && items d'
         end) d
  | _, _ =>
      match as_num a, as_num b with
      | Some x, Some y => num_eq x y
      | _, _ => false
      end
  end.

(** [str.isspace] on one character: U+0009 to U+000D, U+001C to U+0020,
    U+0085, U+00A0, U+1680, U+2000 to U+200A, U+2028, U+2029, U+202F,
    U+205F and U+3000. *)
Definition isspace (cp : string) : bool :=
  match map nat_of_ascii (list_ascii_of_string cp) with
  | [n] => (9 <=? n) && (n <=? 13) || (28 <=? n) && (n <=? 32)
  | [a; n] => (a =? 194) && ((n =? 133) || (n =? 160))
  | [a; b; n] =>
      (a =? 225) && (b =? 154) && (n =? 128)
      || (a =? 226) && (b =? 128)
         && ((128 <=? n) && (n <=? 138) || (n =? 168) || (n =? 169)
             || (n =? 175))
      || (a =? 226) && (b =? 129) && (n =? 159)
      || (a =? 227) && (b =? 128) && (n =? 128)
  | _ => false
  end.

Fixpoint lstrip (cps : list string) : list string :=
  match cps with
  | [] => []
  | cp :: rest => if isspace cp then lstrip rest else cps
  end.

Definition rstrip (cps : list string) : list string := rev (lstrip (rev cps)).

(** [s.strip()] *)
Definition strip (s : string) : string :=
  String.concat "" (rstrip (lstrip (code_points s))).

Definition reverse (s : string) : string :=
  string_of_list_ascii (rev (list_ascii_of_string s)).

(** [s.endswith(suffix)] *)
Definition endswith (s suffix : string) : bool :=
  String.prefix (reverse suffix) (reverse s).

(** [s.startswith(p)] *)
Definition startswith (s p : string) : bool := String.prefix p s.

(** [sep.join(l)] *)
Definition join (sep : string) (l : list string) : string := String.concat sep l.

(** [os.path.join(a, b)] (POSIX). *)
Definition path_join (a b : string) : string :=
  if startswith b "/" then b
  else if (a =? "")%string || endswith a "/" then (a ++ b)%string
  else (a ++ "/" ++ b)%string.

(** [list.sort()] on strings: ascending by code point, stable. *)
Fixpoint insert_sorted (x : string) (l : list string) : list string :=
  match l with
  | [] => [x]
  | y :: l' => if (y <=? x)%string then y :: insert_sorted x l' else x :: l
  end.

Definition sort (l : list string) : list string :=
  fold_left (fun acc x => insert_sorted x acc) l [].

(** [range(0, stop, step)] for a positive [step]. *)
Definition range (stop step : nat) : list nat :=
  map (fun j => j * step) (seq 0 ((stop + step - 1) / step)).

(** [l[i:j]] for [0 <= i <= j]. *)
Definition slice {A : Type} (l : list A) (i j : nat) : list A :=
  firstn (j - i) (skipn i l).

End Py.

(** ** The corpus loader *)

(** A loaded article: the dict with the keys [id], [title] and [text]. *)
Module Article.
Record t : Type := make { id : pyval; title : pyval; text : string }.
End Article.

(** What reading a text stream line by line delivers: a line, or the
    exception of a read that fails (the stream cannot be opened,
    decompressed or decoded: [OSError], [EOFError], [UnicodeDecodeError],
    ...). *)
Inductive read_event : Type :=
| Line (s : string)
| ReadError (e : exn).

(** The part of the file system the script looks at.  [walk top] lists the
    triples [(root, dirs, files)] of [os.walk(top)] in the order the
    directory enumeration delivers them; [open_text is_bz2 p] is the stream
    of [bz2.open(p, 'rt')] or of [open(p, 'r')]. *)
Record filesystem : Type := {
  exists_ : string -> bool;
  isfile : string -> bool;
  isdir : string -> bool;
  walk : string -> list (string * list string * list string);
  open_text : bool -> string -> list read_event
}.

Definition decompressed_file_name : string :=
  "enwiki-20171001-pages-meta-current-withlinks-processed".

(** The [.bz2] chunks below a directory, in enumeration order. *)
Definition bz2_chunks (triples : list (string * list string * list string))
  : list string :=
  flat_map (fun t => match t with
                     | (root, _, files) =>
                         map (Py.path_join root)
                             (filter (fun file => Py.endswith file ".bz2") files)
                     end) triples.

(** [files_to_process] before it is sorted. *)
Definition candidate_files (fs : filesystem) (data_path : string) : list string :=
  if isfile fs data_path then [data_path]
  else if isdir fs data_path then
    let potential_single_file := Py.path_join data_path decompressed_file_name in
    if isfile fs potential_single_file then [potential_single_file]
    else bz2_chunks (walk fs data_path)
  else [].

Definition files_to_process (fs : filesystem) (data_path : string) : list string :=
  Py.sort (candidate_files fs data_path).

(** What one [item] of the text adds to [sentences]: the strings of a
    list, a string itself, nothing otherwise. *)
Definition sentences_of_item (item : pyval) : list string :=
  match item with
  | PList l => flat_map (fun s => match s with PStr s' => [s'] | _ => [] end) l
  | PStr s => [s]
  | _ => []
  end.

(** The body of the inner [try] after [json.loads]: the record to an
    article.  The arguments of [doc.get('id', doc['title'])] are evaluated
    before the call, so [doc['title']] is looked up even when the record
    has an id. *)
Definition article_of_record (doc : pyval) : result Article.t :=
  text_data <- Py.get doc "text" (PList []) ;;
  items <- Py.iter text_data ;;
  let sentences := flat_map sentences_of_item items in
  let full_text := Py.join " " sentences in
  default_id <- Py.getitem doc "title" ;;
  id <- Py.get doc "id" default_id ;;
  title <- Py.getitem doc "title" ;;
  Ok (Article.make id title full_text).

Section Loader.

(** [json.loads]: it returns the decoded value or raises, usually
    [json.JSONDecodeError], but also [ValueError] (an integer of more
    digits than the conversion limit allows) or [RecursionError]. *)
Variable json_loads : string -> result pyval.

(** One line of a file: the inner [try] with its handler, which catches
    [json.JSONDecodeError] and nothing else. *)
Definition process_line (l : string) : result (list Article.t) :=
  let line := Py.strip l in
  if (line =? "")%string then Ok []
  else match (doc <- json_loads line ;; article_of_record doc) with
       | Ok a => Ok [a]
       | Raise JSONDecodeError => Ok []
       | Raise e => Raise e
       end.

(** The loop over the lines of one file; [articles] is the list being
    appended to.  An exception ends the loop and is handed to the
    handler of the outer [try], together with what was appended so far. *)
Fixpoint read_file (stream : list read_event) (articles : list Article.t)
  : list Article.t * option exn :=
  match stream with
  | [] => (articles, None)
  | ReadError e :: _ => (articles, Some e)
  | Line l :: rest =>
      match process_line l with
      | Ok new => read_file rest (articles ++ new)
      | Raise e => (articles, Some e)
      end
  end.

(** The loop over the files.  The outer handler prints the error, which
    is kept in the second component, and continues with the next file. *)
Fixpoint process_files (fs : filesystem) (files : list string)
  (articles : list Article.t) (errors : list (string * exn))
  : list Article.t * list (string * exn) :=
  match files with
  | [] => (articles, errors)
  | file_path :: rest =>
      let is_bz2 := Py.endswith file_path ".bz2" in
      match read_file (open_text fs is_bz2 file_path) articles with
      | (articles', None) => process_files fs rest articles' errors
      | (articles', Some e) =>
          process_files fs rest articles' (errors ++ [(file_path, e)])
      end
  end.

Definition load_wikipedia_articles_log (fs : filesystem) (data_path : string)
  : list Article.t * list (string * exn) :=
  let files := files_to_process fs data_path in
  match files with
  | [] => ([], [])
  | _ => process_files fs files [] []
  end.

Definition load_wikipedia_articles (fs : filesystem) (data_path : string)
  : list Article.t :=
  fst (load_wikipedia_articles_log fs data_path).

End Loader.

(** ** Arrays, the embedding model and the flat index *)

(** float32, the element type of the embeddings and of the distances. *)
Module F32.
Definition prec : Z := 24.
Definition emax : Z := 128.
Definition t : Type := spec_float.
Definition zero : t := S754_zero false.
Definition one : t := SFone prec emax.
Definition of_Z (n : Z) : t := binary_normalize prec emax n 0 false.
Definition add : t -> t -> t := SFadd prec emax.
Definition sub : t -> t -> t := SFsub prec emax.
Definition mul : t -> t -> t := SFmul prec emax.
Definition ltb : t -> t -> bool := SFltb.
(** The largest finite float32. *)
Definition FLT_MAX : t := SFmax_float prec emax.
End F32.

(** A two-dimensional numpy array of shape [(length rows, ncols)]. *)
Record ndarray : Type := { ncols : nat; rows : list (list F32.t) }.

Module Numpy.

(** [np.vstack(tup)]: the arrays must agree on every axis but the first,
    and there must be at least one. *)
Definition vstack (tup : list ndarray) : result ndarray :=
  match tup with
  | [] => Raise ValueError
  | a :: rest =>
      if forallb (fun b => ncols b =? ncols a) rest
      then Ok {| ncols := ncols a; rows := flat_map rows tup |}
      else Raise ValueError
  end.

(** [np.array([v])] *)
Definition array1 (v : list F32.t) : ndarray :=
  {| ncols := List.length v; rows := [v] |}.

End Numpy.

(** [model.encode]: on a list of texts it returns a two-dimensional array,
    on a single text a vector. *)
Record SentenceTransformer : Type := {
  encode : list string -> ndarray;
  encode_str : string -> list F32.t
}.

Module Faiss.

Record IndexFlatL2 : Type := { d : nat; xb : list (list F32.t) }.

Definition ntotal (index : IndexFlatL2) : nat := List.length (xb index).

(** [faiss.IndexFlatL2(d)] *)
Definition new (dim : nat) : IndexFlatL2 := {| d := dim; xb := [] |}.

(** [index.add(x)] *)
Definition add (index : IndexFlatL2) (x : ndarray) : result IndexFlatL2 :=
  if ncols x =? d index
  then Ok {| d := d index; xb := xb index ++ rows x |}
  else Raise AssertionError.

(** Squared Euclidean distance, accumulated from the first coordinate
    with every operation rounded to float32.  The library's vectorised sum
    may round differently; the two agree wherever every intermediate value
    is a float32, as with small integer coordinates. *)
Definition fvec_L2sqr (x y : list F32.t) : F32.t :=
  fold_left (fun acc p => let t := F32.sub (fst p) (snd p) in
                          F32.add acc (F32.mul t t))
            (combine x y) F32.zero.

Fixpoint insert_by_distance (c : F32.t * Z) (l : list (F32.t * Z))
  : list (F32.t * Z) :=
  match l with
  | [] => [c]
  | c' :: l' => if F32.ltb (fst c) (fst c') then c :: l
                else c' :: insert_by_distance c l'
  end.

(** The [k] nearest stored vectors of one query, nearest first, a tie
    going to the lower position.  Every slot starts with the label [-1]
    and the largest float, and a stored vector takes a slot only with a
    distance below the slot's: a vector at the distance of the largest
    float or beyond, or at a distance that is not a number, is no
    neighbour, and the slots that are left keep [-1] and the largest
    float. *)
Definition knn (index : IndexFlatL2) (q : list F32.t) (k : nat)
  : list (F32.t * Z) :=
  let scored := filter (fun c => F32.ltb (fst c) F32.FLT_MAX)
                       (combine (map (fvec_L2sqr q) (xb index))
                                (map Z.of_nat (seq 0 (ntotal index)))) in
  let ranked := fold_left (fun acc c => insert_by_distance c acc) scored [] in
  let best := firstn k ranked in
  best ++ repeat (F32.FLT_MAX, (-1)%Z) (k - List.length best).

(** [index.search(x, k)]: the distances and the labels, one row per
    query. *)
Definition search (index : IndexFlatL2) (x : ndarray) (k : nat)
  : result (list (list F32.t) * list (list Z)) :=
  if negb (ncols x =? d index) then Raise AssertionError
  else if k =? 0 then Raise AssertionError
  else let found := map (fun q => knn index q k) (rows x) in
       Ok (map (map fst) found, map (map snd) found).

End Faiss.

(** ** The script *)

(** How a run ends: it reaches the last line, it calls [exit], or an
    exception escapes. *)
Inductive termination : Type :=
| Completed
| SystemExit (code : option Z)
| Uncaught (e : exn).

Inductive stage (A : Type) : Type :=
| Go (a : A)
| Stop (t : termination).

Arguments Go {A} a.
Arguments Stop {A} t.

(** The three files of [dense_retrieval_artifacts]. *)
Record artifacts : Type := {
  wikipedia_faiss_index_bin : option Faiss.IndexFlatL2;
  wikipedia_corpus_ids_json : option (list pyval);
  wikipedia_corpus_embeddings_npy : option ndarray
}.

Definition no_artifacts : artifacts :=
  {| wikipedia_faiss_index_bin := None;
     wikipedia_corpus_ids_json := None;
     wikipedia_corpus_embeddings_npy := None |}.

(** The lines the retrieval test prints. *)
Inductive output_line : Type :=
| Rank (rank : nat) (article_title article_id : pyval) (distance : F32.t)
| OutOfBounds (idx : Z).

(** The embedding loop: one call of [model.encode] per chunk. *)
Definition embed_chunks (model : SentenceTransformer)
  (corpus_texts : list string) (chunk_size : nat) : list ndarray :=
  map (fun i => encode model (Py.slice corpus_texts i (i + chunk_size)))
      (Py.range (List.length corpus_texts) chunk_size).

(** "Generate Embeddings": the loop, then [np.vstack] when the loop
    produced something and [exit()] otherwise.  [range] rejects a zero
    step. *)
Definition generate_embeddings (model : SentenceTransformer)
  (corpus_texts : list string) (chunk_size : nat) : stage ndarray :=
  if chunk_size =? 0 then Stop (Uncaught ValueError)
  else
    let all_embeddings := embed_chunks model corpus_texts chunk_size in
    match all_embeddings with
    | [] => Stop (SystemExit None)
    | _ => match Numpy.vstack all_embeddings with
           | Ok corpus_embeddings => Go corpus_embeddings
           | Raise e => Stop (Uncaught e)
           end
    end.

(** "Build FAISS Index" *)
Definition build_faiss_index (corpus_embeddings : ndarray)
  : stage Faiss.IndexFlatL2 :=
  if 0 <? List.length (rows corpus_embeddings) then
    let embedding_dim := ncols corpus_embeddings in
    match Faiss.add (Faiss.new embedding_dim) corpus_embeddings with
    | Ok index => Go index
    | Raise e => Stop (Uncaught e)
    end
  else Stop (SystemExit None).

(** "Save FAISS Index and Embeddings" *)
Definition save_artifacts (index : Faiss.IndexFlatL2) (corpus_ids : list pyval)
  (corpus_embeddings : ndarray) : artifacts :=
  {| wikipedia_faiss_index_bin := Some index;
     wikipedia_corpus_ids_json := Some corpus_ids;
     wikipedia_corpus_embeddings_npy := Some corpus_embeddings |}.

(** [next((a['title'] for a in wikipedia_articles if a['id'] == article_id),
    "Unknown")] *)
Definition title_of (wikipedia_articles : list Article.t) (article_id : pyval)
  : pyval :=
  match find (fun a => Py.eq (Article.id a) article_id) wikipedia_articles with
  | Some a => Article.title a
  | None => PStr "Unknown"
  end.

(** The loop [for i, idx in enumerate(indices[0])]: the lines it hands to
    [print], in order; the lines printed so far are kept when an exception
    ends it.  The encoding of a line by the output stream is not modelled:
    where it fails, the lines printed are the ones before that line. *)
Fixpoint report (wikipedia_articles : list Article.t) (corpus_ids : list pyval)
  (distances0 : list F32.t) (i : nat) (indices0 : list Z)
  (printed : list output_line) : list output_line * option exn :=
  match indices0 with
  | [] => (printed, None)
  | idx :: rest =>
      if (idx <? Z.of_nat (List.length corpus_ids))%Z then
        match Py.list_getitem corpus_ids idx with
        | Raise e => (printed, Some e)
        | Ok article_id =>
            let article_title := title_of wikipedia_articles article_id in
            match Py.list_getitem distances0 (Z.of_nat i) with
            | Raise e => (printed, Some e)
            | Ok distance =>
                report wikipedia_articles corpus_ids distances0 (S i) rest
                  (printed ++ [Rank (i + 1) article_title article_id distance])
            end
        end
      else report wikipedia_articles corpus_ids distances0 (S i) rest
             (printed ++ [OutOfBounds idx])
  end.

(** "Test Retrieval", from the query embedding on. *)
Definition search_and_report (wikipedia_articles : list Article.t)
  (corpus_ids : list pyval) (index : Faiss.IndexFlatL2)
  (query_embedding : ndarray) (k_neighbors : nat)
  : list output_line * option exn :=
  match Faiss.search index query_embedding k_neighbors with
  | Raise e => ([], Some e)
  | Ok (distances, indices) =>
      match distances, indices with
      | distances0 :: _, indices0 :: _ =>
          report wikipedia_articles corpus_ids distances0 0 indices0 []
      | _, _ => ([], Some IndexError)
      end
  end.

Definition test_retrieval (model : SentenceTransformer)
  (wikipedia_articles : list Article.t) (corpus_ids : list pyval)
  (index : Faiss.IndexFlatL2) (query_text : string) (k_neighbors : nat)
  : list output_line * option exn :=
  let query_embedding := Numpy.array1 (encode_str model query_text) in
  search_and_report wikipedia_articles corpus_ids index query_embedding
    k_neighbors.

(** What a run leaves behind. *)
Record run : Type := {
  wikipedia_articles : list Article.t;
  corpus_embeddings : option ndarray;
  index : option Faiss.IndexFlatL2;
  saved : artifacts;
  printed : list output_line;
  outcome : termination
}.

Section Main.

Variable json_loads : string -> result pyval.
Variable fs : filesystem.
Variable model : SentenceTransformer.

(** The main block, with the data path, the chunk size, the query and
    the number of neighbours as arguments. *)
Definition main (data_path : string) (chunk_size : nat)
  (query_text : string) (k_neighbors : nat) : run :=
  if negb (exists_ fs data_path) then
    {| wikipedia_articles := []; corpus_embeddings := None; index := None;
       saved := no_artifacts; printed := [];
       outcome := SystemExit (Some 1%Z) |}
  else
    let articles := load_wikipedia_articles json_loads fs data_path in
    match articles with
    | [] =>
        {| wikipedia_articles := articles; corpus_embeddings := None;
           index := None; saved := no_artifacts; printed := [];
           outcome := SystemExit None |}
    | _ =>
        let corpus_texts := map Article.text articles in
        let corpus_ids := map Article.id articles in
        match generate_embeddings model corpus_texts chunk_size with
        | Stop t =>
            {| wikipedia_articles := articles; corpus_embeddings := None;
               index := None; saved := no_artifacts; printed := [];
               outcome := t |}
        | Go embeddings =>
            match build_faiss_index embeddings with
            | Stop t =>
                {| wikipedia_articles := articles;
                   corpus_embeddings := Some embeddings;
                   index := None; saved := no_artifacts; printed := [];
                   outcome := t |}
            | Go idx =>
                let lines_err :=
                  test_retrieval model articles corpus_ids idx query_text
                    k_neighbors in
                {| wikipedia_articles := articles;
                   corpus_embeddings := Some embeddings;
                   index := Some idx;
                   saved := save_artifacts idx corpus_ids embeddings;
                   printed := fst lines_err;
                   outcome := match snd lines_err with
                              | None => Completed
                              | Some e => Uncaught e
                              end |}
            end
        end
    end.

(** The constants of the script. *)
Definition WIKI_DATA_PATH_FOR_LOADING : string :=
  "data/enwiki-20171001-pages-meta-current-withlinks-processed/".

Definition script : run :=
  main WIKI_DATA_PATH_FOR_LOADING 1000 "Who invented the light bulb?" 5.

End Main.

(** * Vocabulary of the properties *)

(** An embedding model that maps each text to a fixed vector of width
    [dim]. *)
Definition per_text (model : SentenceTransformer) (dim : nat)
  (enc : string -> list F32.t) : Prop :=
  (forall t, List.length (enc t) = dim) /\
  (forall chunk, encode model chunk = {| ncols := dim; rows := map enc chunk |}).

(** [doc.get('text', [])] and [doc.get('id', title)] on the items of a
    dict. *)
Definition text_data_of (d : list (string * pyval)) : pyval :=
  match Py.lookup "text" d with
  | Some v => v
  | None => PList []
  end.

Definition id_of (d : list (string * pyval)) (title : pyval) : pyval :=
  match Py.lookup "id" d with
  | Some v => v
  | None => title
  end.

(** The order of [list.sort()] on paths. *)
Definition path_le (a b : string) : Prop := (a <=? b)%string = true.

(** The float32 vector of integer coordinates. *)
Definition float_vector (coords : list Z) : list F32.t := map F32.of_Z coords.

(** An embedding model that returns one row for each text of a chunk. *)
Definition row_per_text (model : SentenceTransformer) : Prop :=
  forall chunk, List.length (rows (encode model chunk)) = List.length chunk.

(** The [(id, distance)] pairs of the printed ranks. *)
Definition results (lines : list output_line) : list (pyval * F32.t) :=
  flat_map (fun line => match line with
                        | Rank _ _ article_id distance => [(article_id, distance)]
                        | OutOfBounds _ => []
                        end) lines.

Section LineVocabulary.

Variable json_loads : string -> result pyval.

(** A non-blank line that decodes to a JSON object with a [title]. *)
Definition title_bearing (l : string) : bool :=
  let line := Py.strip l in
  negb (line =? "")%string &&
  match json_loads line with
  | Ok (PDict d) => match Py.lookup "title" d with
                    | Some _ => true
                    | None => false
                    end
  | _ => false
  end.

(** A read that ends the processing of its file: the read itself fails,
    or the line raises something the inner handler does not catch. *)
Definition fails (ev : read_event) : bool :=
  match ev with
  | ReadError _ => true
  | Line l => match process_line json_loads l with
              | Ok _ => false
              | Raise _ => true
              end
  end.

Fixpoint before_failure (stream : list read_event) : list read_event :=
  match stream with
  | [] => []
  | ev :: rest => if fails ev then [] else ev :: before_failure rest
  end.

Definition count_title_bearing (stream : list read_event) : nat :=
  List.length (filter (fun ev => match ev with
                                 | Line l => title_bearing l
                                 | ReadError _ => false
                                 end) stream).

(** The articles of a sequence of reads, line by line. *)
Definition articles_of (stream : list read_event) : list Article.t :=
  flat_map (fun ev => match ev with
                      | Line l => match process_line json_loads l with
                                  | Ok new => new
                                  | Raise _ => []
                                  end
                      | ReadError _ => []
                      end) stream.

(** The exception a record raises on its way to an article: it is no
    object, its text cannot be iterated, or it has no title. *)
Definition record_raises (doc : pyval) (e : exn) : Prop :=
  ((forall d, doc <> PDict d) /\ e = AttributeError) \/
  (exists d, doc = PDict d /\
     ((exists e', Py.iter (text_data_of d) = Raise e') /\ e = TypeError \/
      (exists items, Py.iter (text_data_of d) = Ok items) /\
      Py.lookup "title" d = None /\ e = KeyError "title")).

(** The exception a read ends its file with: the one of the read itself,
    the one [json.loads] raises on the line when it is not a
    [JSONDecodeError], or the one of the record. *)
Definition raised_by (ev : read_event) (e : exn) : Prop :=
  match ev with
  | ReadError e' => e = e'
  | Line l =>
      (Py.strip l =? "")%string = false /\
      ((json_loads (Py.strip l) = Raise e /\ e <> JSONDecodeError) \/
       (exists doc, json_loads (Py.strip l) = Ok doc /\ record_raises doc e))
  end.

End LineVocabulary.

(** The stream the loader reads from a file. *)
Definition stream_of (fs : filesystem) (file_path : string) : list read_event :=
  open_text fs (Py.endswith file_path ".bz2") file_path.

(** Two file systems that differ at most in the order in which a directory
    walk enumerates the chunks. *)
Definition same_up_to_enumeration (fs fs' : filesystem) (data_path : string)
  : Prop :=
  (forall p, isfile fs' p = isfile fs p) /\
  (forall p, isdir fs' p = isdir fs p) /\
  (forall b p, open_text fs' b p = open_text fs b p) /\
  Permutation (bz2_chunks (walk fs data_path)) (bz2_chunks (walk fs' data_path)).

(** ** Further vocabulary *)


(** A line of white space only. *)
Definition whitespace_only (l : string) : bool :=
  forallb Py.isspace (Py.code_points l).



(** The chunks of the embedding loop. *)
Definition chunks_of (corpus_texts : list string) (chunk_size : nat)
  : list (list string) :=
  map (fun i => Py.slice corpus_texts i (i + chunk_size))
      (Py.range (List.length corpus_texts) chunk_size).





(** * Example inputs *)

Module Example.

Definition quote : string := String "034"%char EmptyString.

(** The JSON text of a string without escapes, and of an object. *)
Definition jstr (s : string) : string := (quote ++ s ++ quote)%string.

Definition jobj (fields : list (string * string)) : string :=
  ("{" ++ Py.join ", " (map (fun kv => jstr (fst kv) ++ ": " ++ snd kv) fields)
       ++ "}")%string.

Definition jlist (items : list string) : string :=
  ("[" ++ Py.join ", " items ++ "]")%string.

(** Lines of a corpus file, each with the value it decodes to. *)
Definition line_a : string :=
  jobj [("id", jstr "a"); ("title", jstr "A"); ("text", jlist [jstr "x"])].
Definition doc_a : pyval :=
  PDict [("id", PStr "a"); ("title", PStr "A"); ("text", PList [PStr "x"])].

Definition line_b : string :=
  jobj [("id", jstr "b"); ("title", jstr "B"); ("text", jlist [jstr "y"])].
Definition doc_b : pyval :=
  PDict [("id", PStr "b"); ("title", PStr "B"); ("text", PList [PStr "y"])].

Definition line_c : string :=
  jobj [("id", jstr "c"); ("title", jstr "C");
        ("text", jlist [jlist [jstr "z"; "1"]; jstr "w"; "2"])].
Definition doc_c : pyval :=
  PDict [("id", PStr "c"); ("title", PStr "C");
         ("text", PList [PList [PStr "z"; PInt 1]; PStr "w"; PInt 2])].

Definition line_no_title : string := jobj [("id", "7")].
Definition doc_no_title : pyval := PDict [("id", PInt 7)].

Definition line_empty_title : string := jobj [("title", jstr "")].
Definition doc_empty_title : pyval := PDict [("title", PStr "")].

Definition line_text_string : string :=
  jobj [("title", jstr "T"); ("text", jstr "ab c")].
Definition doc_text_string : pyval :=
  PDict [("title", PStr "T"); ("text", PStr "ab c")].

(** The letter e with an acute accent: one character of two bytes. *)
Definition e_acute : string :=
  String "195"%char (String "169"%char EmptyString).

Definition line_text_accent : string :=
  jobj [("title", jstr "T"); ("text", jstr (e_acute ++ "ab"))].
Definition doc_text_accent : pyval :=
  PDict [("title", PStr "T"); ("text", PStr (e_acute ++ "ab"))].

Definition line_text_string_no_title : string := jobj [("text", jstr "ab")].
Definition doc_text_string_no_title : pyval := PDict [("text", PStr "ab")].

Definition line_bad : string := "{bad json".

(** A decoder that knows these lines and rejects every other text. *)
Definition known_lines : list (string * pyval) :=
  [(line_a, doc_a); (line_b, doc_b); (line_c, doc_c);
   (line_no_title, doc_no_title); (line_empty_title, doc_empty_title);
   (line_text_string, doc_text_string);
   (line_text_accent, doc_text_accent);
   (line_text_string_no_title, doc_text_string_no_title)].

(** A record with a title and an integer of 4301 digits as id: valid
    JSON on which [json.loads] raises [ValueError]. *)
Definition line_long_integer : string :=
  jobj [("title", jstr "T"); ("id", String.concat "" (repeat "1" 4301))].

Definition json_loads (s : string) : result pyval :=
  if (s =? line_long_integer)%string then Raise ValueError
  else match Py.lookup s known_lines with
       | Some doc => Ok doc
       | None => Raise JSONDecodeError
       end.

Definition newline : string := String "010"%char EmptyString.

(** The lines as a text stream delivers them. *)
Definition stream (lines : list string) : list read_event :=
  map (fun l => Line (l ++ newline)%string) lines.

(** A data directory that holds the one decompressed file. *)
Definition decompressed_dir (data_path : string) (content : list read_event)
  : filesystem :=
  let file := Py.path_join data_path decompressed_file_name in
  {| exists_ := fun p => (p =? data_path)%string || (p =? file)%string;
     isfile := fun p => (p =? file)%string;
     isdir := fun p => (p =? data_path)%string;
     walk := fun _ => [(data_path, [], [decompressed_file_name])];
     open_text := fun _ p => if (p =? file)%string then content
                             else [ReadError OSError] |}.

(** A data directory of chunks: [triples] is what the walk enumerates. *)
Definition chunk_dir (data_path : string)
  (triples : list (string * list string * list string))
  (content : string -> list read_event) : filesystem :=
  {| exists_ := fun p => (p =? data_path)%string;
     isfile := fun _ => false;
     isdir := fun p => (p =? data_path)%string;
     walk := fun _ => triples;
     open_text := fun _ p => content p |}.

Definition vec : list Z -> list F32.t := float_vector.

(** A model that embeds into the plane. *)
Definition enc (t : string) : list F32.t :=
  if (t =? "x")%string then vec [0; 0]%Z
  else if (t =? "y")%string then vec [1; 0]%Z
  else vec [5; 5]%Z.

Definition plane_model : SentenceTransformer :=
  {| encode := fun chunk => {| ncols := 2; rows := map enc chunk |};
     encode_str := fun _ => vec [0; 0]%Z |}.

(** A model whose rows are four wide for the chunk [["x"]] and five wide
    for every other chunk. *)
Definition uneven_model : SentenceTransformer :=
  {| encode := fun chunk =>
       match chunk with
       | [t] => if (t =? "x")%string
                then {| ncols := 4; rows := [vec [0; 0; 0; 0]%Z] |}
                else {| ncols := 5; rows := [vec [0; 0; 0; 0; 0]%Z] |}
       | _ => {| ncols := 5;
                 rows := map (fun _ => vec [0; 0; 0; 0; 0]%Z) chunk |}
       end;
     encode_str := fun _ => vec [0; 0; 0; 0]%Z |}.

Definition data_path : string := WIKI_DATA_PATH_FOR_LOADING.

(** The corpus of the three documents a, b and c. *)
Definition abc_dir : filesystem :=
  decompressed_dir data_path (stream [line_a; line_b; line_c]).

(** A directory of two chunks, as two walks may enumerate it. *)
Definition shard_content (p : string) : list read_event :=
  if (p =? "data/s1/a.bz2")%string then stream [line_a; line_bad; ""; line_b]
  else if (p =? "data/s2/b.bz2")%string then stream [line_c]
  else [ReadError OSError].

Definition shards_one : filesystem :=
  chunk_dir "data"
    [("data", ["s2"; "s1"], []);
     ("data/s2", [], ["b.bz2"; "notes.txt"]);
     ("data/s1", [], ["a.bz2"])]
    shard_content.

Definition shards_two : filesystem :=
  chunk_dir "data"
    [("data", ["s1"; "s2"], []);
     ("data/s1", [], ["a.bz2"]);
     ("data/s2", [], ["notes.txt"; "b.bz2"])]
    shard_content.

Definition article_a : Article.t := Article.make (PStr "a") (PStr "A") "x".
Definition article_b : Article.t := Article.make (PStr "b") (PStr "B") "y".
Definition article_c : Article.t := Article.make (PStr "c") (PStr "C") "z w".

End Example.

(** * Properties *)

(** ** Chunking *)

Lemma firstn_plus_skipn {A : Type} (a b : nat) (l : list A) :
  firstn (a + b) l = firstn a l ++ firstn b (skipn a l).
Proof.
  revert l; induction a as [|a IH]; intros l; simpl; [reflexivity|].
  destruct l as [|x l]; simpl.
  - now rewrite firstn_nil.
  - now rewrite IH.
Qed.

Lemma slice_chunk {A : Type} (l : list A) (i cs : nat) :
  Py.slice l i (i + cs) = firstn cs (skipn i l).
Proof. unfold Py.slice. now replace (i + cs - i) with cs by lia. Qed.

Lemma chunks_cover_prefix {A : Type} (l : list A) (cs m : nat) :
  flat_map (fun i => Py.slice l i (i + cs)) (map (fun j => j * cs) (seq 0 m))
  = firstn (m * cs) l.
Proof.
  induction m as [|m IH]; [reflexivity|].
  rewrite seq_S, map_app, flat_map_app, IH; simpl.
  rewrite app_nil_r, slice_chunk.
  rewrite (Nat.add_comm cs (m * cs)).
  symmetry; apply firstn_plus_skipn.
Qed.

Lemma range_reaches_stop (n cs : nat) :
  1 <= cs -> n <= (n + cs - 1) / cs * cs.
Proof.
  intros Hcs.
  pose proof (Nat.div_mod_eq (n + cs - 1) cs) as Hdm.
  pose proof (Nat.mod_upper_bound (n + cs - 1) cs ltac:(lia)) as Hlt.
  nia.
Qed.

(** The chunks, one after the other, are the texts. *)
Lemma chunks_concat {A : Type} (l : list A) (cs : nat) :
  1 <= cs ->
  flat_map (fun i => Py.slice l i (i + cs)) (Py.range (List.length l) cs) = l.
Proof.
  intros Hcs. unfold Py.range.
  rewrite chunks_cover_prefix.
  apply firstn_all2, range_reaches_stop, Hcs.
Qed.

Lemma range_nonempty (n cs : nat) :
  1 <= cs -> 1 <= n -> Py.range n cs <> [].
Proof.
  intros Hcs Hn. unfold Py.range.
  assert (H : 1 <= (n + cs - 1) / cs).
  { apply Nat.div_le_lower_bound; lia. }
  destruct ((n + cs - 1) / cs) as [|m]; [lia|]. discriminate.
Qed.

Lemma range_empty (cs : nat) : Py.range 0 cs = [].
Proof.
  unfold Py.range. destruct cs as [|cs]; [reflexivity|].
  replace (0 + S cs - 1) with cs by lia.
  now rewrite Nat.div_small by lia.
Qed.

Lemma vstack_same_width (dim : nat) (parts : list (list (list F32.t))) :
  parts <> [] ->
  Numpy.vstack (map (fun r => {| ncols := dim; rows := r |}) parts)
  = Ok {| ncols := dim; rows := List.concat parts |}.
Proof.
  destruct parts as [|p parts]; [congruence|]. intros _.
  unfold Numpy.vstack; simpl map.
  assert (Hw : forallb (fun b => ncols b =? dim)
                 (map (fun r => {| ncols := dim; rows := r |}) parts) = true).
  { apply forallb_forall. intros b Hb. apply in_map_iff in Hb.
    destruct Hb as [r [<- _]]. apply Nat.eqb_refl. }
  cbn [ncols]. rewrite Hw. f_equal. f_equal.
  change (flat_map rows (map (fun r => {| ncols := dim; rows := r |}) (p :: parts))
          = List.concat (p :: parts)).
  generalize (p :: parts) as l.
  induction l as [|r l IH]; simpl; [reflexivity|now rewrite IH].
Qed.

Lemma generate_embeddings_per_text model dim enc texts cs :
  per_text model dim enc -> 1 <= cs -> texts <> [] ->
  generate_embeddings model texts cs
  = Go {| ncols := dim; rows := map enc texts |}.
Proof.
  intros [_ Henc] Hcs Hne. unfold generate_embeddings.
  destruct (Nat.eqb_spec cs 0) as [->|_]; [lia|].
  unfold embed_chunks.
  pose (parts := map (fun i => map enc (Py.slice texts i (i + cs)))
                     (Py.range (List.length texts) cs)).
  assert (Hparts : map (fun i => encode model (Py.slice texts i (i + cs)))
                       (Py.range (List.length texts) cs)
                   = map (fun r => {| ncols := dim; rows := r |}) parts).
  { unfold parts. rewrite map_map. apply map_ext. intros; apply Henc. }
  assert (Hcat : List.concat parts = map enc texts).
  { unfold parts. rewrite <- (chunks_concat texts cs Hcs) at 2.
    generalize (Py.range (List.length texts) cs) as l.
    induction l as [|i l IH]; simpl; [reflexivity|].
    now rewrite map_app, IH. }
  assert (Hne' : parts <> []).
  { unfold parts. intros E. apply map_eq_nil in E. revert E.
    apply range_nonempty; [exact Hcs|].
    destruct texts; [congruence|simpl; lia]. }
  rewrite Hparts, (vstack_same_width dim parts Hne'), Hcat.
  destruct parts; [congruence|reflexivity].
Qed.


(** ** The stages of the build *)

Lemma vstack_mismatch (tup : list ndarray) (a b : ndarray) :
  In a tup -> In b tup -> ncols a <> ncols b ->
  Numpy.vstack tup = Raise ValueError.
Proof.
  intros Ha Hb Hab. unfold Numpy.vstack.
  destruct tup as [|h rest]; [contradiction|].
  destruct (forallb (fun c => ncols c =? ncols h) rest) eqn:Hall; [|reflexivity].
  exfalso. apply Hab.
  assert (Hw : forall c, In c (h :: rest) -> ncols c = ncols h).
  { intros c [<-|Hc]; [reflexivity|].
    rewrite forallb_forall in Hall. now apply Nat.eqb_eq, Hall. }
  now rewrite (Hw a Ha), (Hw b Hb).
Qed.

Lemma build_faiss_index_rows (matrix : ndarray) :
  rows matrix <> [] ->
  build_faiss_index matrix = Go {| Faiss.d := ncols matrix; Faiss.xb := rows matrix |}.
Proof.
  intros Hne. unfold build_faiss_index.
  destruct (rows matrix) as [|r rs] eqn:E; [congruence|].
  cbn [List.length Nat.ltb Nat.leb]. unfold Faiss.add, Faiss.new; cbn [Faiss.d Faiss.xb].
  now rewrite Nat.eqb_refl, E.
Qed.


Lemma plane_model_per_text : per_text Example.plane_model 2 Example.enc.
Proof.
  split; [|reflexivity].
  intros t. unfold Example.enc.
  destruct (t =? "x")%string; [reflexivity|].
  destruct (t =? "y")%string; reflexivity.
Qed.

Lemma per_text_row_per_text model dim enc :
  per_text model dim enc -> row_per_text model.
Proof. intros [_ H] chunk. rewrite H. apply length_map. Qed.

Lemma vstack_rows (tup : list ndarray) (matrix : ndarray) :
  Numpy.vstack tup = Ok matrix -> rows matrix = flat_map rows tup.
Proof.
  unfold Numpy.vstack. destruct tup as [|a rest]; [discriminate|].
  destruct (forallb _ rest); [|discriminate]. now intros [= <-].
Qed.

Lemma generate_embeddings_rows model texts cs matrix :
  generate_embeddings model texts cs = Go matrix ->
  1 <= cs /\
  rows matrix
  = flat_map (fun i => rows (encode model (Py.slice texts i (i + cs))))
             (Py.range (List.length texts) cs).
Proof.
  unfold generate_embeddings.
  destruct (Nat.eqb_spec cs 0) as [->|Hcs]; [discriminate|].
  destruct (embed_chunks model texts cs) as [|a rest] eqn:E; [discriminate|].
  destruct (Numpy.vstack (a :: rest)) as [m|e] eqn:V; [|discriminate].
  intros [= <-]. split; [lia|].
  rewrite (vstack_rows _ _ V), <- E. unfold embed_chunks.
  generalize (Py.range (List.length texts) cs) as l.
  induction l as [|i l IH]; simpl; [reflexivity|now rewrite IH].
Qed.

Section Chunked.

Context {A B : Type}.
Variable f : list A -> list B.
Hypothesis f_length : forall chunk, List.length (f chunk) = List.length chunk.
Variable texts : list A.
Variable cs : nat.
Hypothesis cs_pos : 1 <= cs.

Lemma chunked_prefix_length (m : nat) :
  List.length (flat_map (fun i => f (Py.slice texts i (i + cs)))
                        (map (fun j => j * cs) (seq 0 m)))
  = Nat.min (m * cs) (List.length texts).
Proof.
  rewrite <- length_firstn, <- (chunks_cover_prefix texts cs m).
  generalize (map (fun j => j * cs) (seq 0 m)) as l.
  induction l as [|i l IH]; simpl; [reflexivity|].
  now rewrite !length_app, IH, f_length.
Qed.

Lemma chunked_length :
  List.length (flat_map (fun i => f (Py.slice texts i (i + cs)))
                        (Py.range (List.length texts) cs))
  = List.length texts.
Proof.
  unfold Py.range. rewrite chunked_prefix_length.
  apply Nat.min_r, range_reaches_stop, cs_pos.
Qed.

(** Row [p] of the stacked chunk outputs is row [p mod cs] of the output
    for chunk number [p / cs]. *)
Lemma nth_error_chunked (p : nat) :
  p < List.length texts ->
  nth_error (flat_map (fun i => f (Py.slice texts i (i + cs)))
                      (Py.range (List.length texts) cs)) p
  = nth_error (f (Py.slice texts (p / cs * cs) (p / cs * cs + cs))) (p mod cs).
Proof.
  intros Hp. unfold Py.range.
  set (n := List.length texts) in *.
  set (m := (n + cs - 1) / cs).
  set (c := p / cs).
  assert (Hdm : p = c * cs + p mod cs).
  { unfold c. rewrite (Nat.mul_comm (p / cs) cs). apply Nat.div_mod_eq. }
  assert (Ho : p mod cs < cs) by (apply Nat.mod_upper_bound; lia).
  assert (Hm : n <= m * cs) by (apply range_reaches_stop; exact cs_pos).
  assert (Hc : c < m) by nia.
  replace m with (c + S (m - c - 1)) by lia.
  rewrite seq_app, map_app, flat_map_app. simpl seq. simpl map. simpl flat_map.
  assert (Hlen : List.length
                   (flat_map (fun i => f (Py.slice texts i (i + cs)))
                             (map (fun j => j * cs) (seq 0 c))) = c * cs).
  { rewrite chunked_prefix_length. fold n. lia. }
  rewrite nth_error_app2 by lia.
  rewrite Hlen. replace (p - c * cs) with (p mod cs) by lia.
  apply nth_error_app1.
  rewrite f_length, slice_chunk, length_firstn, length_skipn. fold n. lia.
Qed.

(** Text [p] is text [p mod cs] of chunk number [p / cs]. *)
Lemma nth_error_chunk_text (p : nat) :
  nth_error (Py.slice texts (p / cs * cs) (p / cs * cs + cs)) (p mod cs)
  = nth_error texts p.
Proof.
  rewrite slice_chunk, nth_error_firstn.
  assert (Ho : p mod cs < cs) by (apply Nat.mod_upper_bound; lia).
  apply Nat.ltb_lt in Ho. rewrite Ho, nth_error_skipn.
  f_equal. rewrite (Nat.mul_comm (p / cs) cs). symmetry. apply Nat.div_mod_eq.
Qed.

End Chunked.

(** C3: in every run, the texts that reach the batched embedding are the
    texts of the loaded articles, and there is at least one of them (a run
    that loads nothing exits before).  For every chunk size of at least
    one, with an embedding function that maps each text to a fixed vector,
    slicing these texts into chunks, embedding chunk by chunk and stacking
    the outputs in order yields a matrix with one row per text, the vector
    of that text; the matrix is the same for every chunk size. *)
Theorem batched_embedding_on_every_run
  (json_loads : string -> result pyval) (fs : filesystem)
  (model : SentenceTransformer) (dim : nat) (enc : string -> list F32.t)
  (data_path query : string) (cs k : nat) :
  per_text model dim enc -> 1 <= cs ->
  let r := main json_loads fs model data_path cs query k in
  let texts := map Article.text (wikipedia_articles r) in
  (wikipedia_articles r = [] -> corpus_embeddings r = None) /\
  (wikipedia_articles r <> [] ->
   exists matrix,
     generate_embeddings model texts cs = Go matrix /\
     corpus_embeddings r = Some matrix /\
     List.length (rows matrix) = List.length texts /\
     rows matrix = map enc texts /\
     forall cs' query' k',
       1 <= cs' ->
       generate_embeddings model texts cs' = Go matrix /\
       corpus_embeddings (main json_loads fs model data_path cs' query' k')
       = Some matrix).
Proof.
  intros Hm Hcs r texts. subst texts r.
  assert (Hrun : forall c q n,
            1 <= c ->
            load_wikipedia_articles json_loads fs data_path <> [] ->
            exists_ fs data_path = true ->
            corpus_embeddings (main json_loads fs model data_path c q n)
            = Some {| ncols := dim;
                      rows := map enc
                                (map Article.text
                                   (load_wikipedia_articles json_loads fs
                                      data_path)) |}).
  { intros c q n Hc Hne Hex. unfold main. rewrite Hex. cbn [negb].
    destruct (load_wikipedia_articles json_loads fs data_path) as [|a0 l];
      [congruence|].
    rewrite (generate_embeddings_per_text model dim enc _ c Hm Hc)
      by discriminate.
    destruct (build_faiss_index _); reflexivity. }
  assert (Hart : wikipedia_articles
                   (main json_loads fs model data_path cs query k)
                 = if exists_ fs data_path
                   then load_wikipedia_articles json_loads fs data_path
                   else []).
  { unfold main. destruct (exists_ fs data_path); cbn [negb]; [|reflexivity].
    destruct (load_wikipedia_articles json_loads fs data_path) as [|a0 l];
      [reflexivity|].
    destruct (generate_embeddings _ _ _) as [m|t]; [|reflexivity].
    destruct (build_faiss_index m); reflexivity. }
  rewrite Hart. split.
  - intros Hnil. unfold main.
    destruct (exists_ fs data_path); cbn [negb]; [|reflexivity].
    now rewrite Hnil.
  - intros Hne.
    destruct (exists_ fs data_path) eqn:Hex; [|congruence].
    exists {| ncols := dim;
              rows := map enc
                        (map Article.text
                           (load_wikipedia_articles json_loads fs data_path)) |}.
    assert (Hne' : map Article.text
                     (load_wikipedia_articles json_loads fs data_path) <> []).
    { intros H. apply map_eq_nil in H. congruence. }
    repeat split.
    + now apply generate_embeddings_per_text.
    + now apply Hrun.
    + apply length_map.
    + now apply generate_embeddings_per_text.
    + now apply Hrun.
Qed.

Lemma batched_embedding_on_every_run_witness :
  let r := main Example.json_loads Example.abc_dir Example.plane_model
             Example.data_path 2 "q" 2 in
  let texts := map Article.text (wikipedia_articles r) in
  texts = ["x"; "y"; "z w"] /\
  exists matrix,
    generate_embeddings Example.plane_model texts 2 = Go matrix /\
    corpus_embeddings r = Some matrix /\
    List.length (rows matrix) = List.length texts /\
    rows matrix = map Example.enc texts /\
    forall cs' query' k',
      1 <= cs' ->
      generate_embeddings Example.plane_model texts cs' = Go matrix /\
      corpus_embeddings
        (main Example.json_loads Example.abc_dir Example.plane_model
           Example.data_path cs' query' k')
      = Some matrix.
Proof.
  split; [vm_compute; reflexivity|].
  apply (batched_embedding_on_every_run Example.json_loads Example.abc_dir
           Example.plane_model 2 Example.enc Example.data_path "q" 2 2
           plane_model_per_text).
  - lia.
  - vm_compute. discriminate.
Defined.




Lemma main_loaded
  (json_loads : string -> result pyval) (fs : filesystem)
  (model : SentenceTransformer) (data_path query : string) (cs k : nat) :
  exists_ fs data_path = true ->
  wikipedia_articles (main json_loads fs model data_path cs query k)
  = load_wikipedia_articles json_loads fs data_path.
Proof.
  intros Hex. unfold main. rewrite Hex; cbn [negb].
  destruct (load_wikipedia_articles json_loads fs data_path) as [|a l];
    [reflexivity|].
  destruct (generate_embeddings _ _ _) as [m|t]; [|reflexivity].
  destruct (build_faiss_index m); reflexivity.
Qed.

(** C4: when two chunks come back from the embedding function with rows of
    different widths, stacking them raises numpy's [ValueError], the error
    of mismatching dimensions; it is not caught, so the run ends there,
    before an index exists and with nothing saved. *)
Theorem width_mismatch_aborts_before_index
  (json_loads : string -> result pyval) (fs : filesystem)
  (model : SentenceTransformer) (data_path query : string) (cs k : nat)
  (i j : nat) (a b : ndarray) :
  exists_ fs data_path = true ->
  1 <= cs ->
  let corpus_texts :=
    map Article.text (load_wikipedia_articles json_loads fs data_path) in
  nth_error (embed_chunks model corpus_texts cs) i = Some a ->
  nth_error (embed_chunks model corpus_texts cs) j = Some b ->
  ncols a <> ncols b ->
  let r := main json_loads fs model data_path cs query k in
  outcome r = Uncaught ValueError /\
  corpus_embeddings r = None /\ index r = None /\ saved r = no_artifacts.
Proof.
  intros Hex Hcs texts Ha Hb Hab. unfold main. rewrite Hex; cbn [negb].
  apply nth_error_In in Ha, Hb.
  assert (Hgen : generate_embeddings model texts cs = Stop (Uncaught ValueError)).
  { unfold generate_embeddings.
    destruct (Nat.eqb_spec cs 0) as [->|_]; [lia|].
    rewrite (vstack_mismatch _ a b Ha Hb Hab).
    destruct (embed_chunks model texts cs); [contradiction|reflexivity]. }
  subst texts.
  destruct (load_wikipedia_articles json_loads fs data_path) as [|a0 l] eqn:E.
  - unfold embed_chunks in Ha. simpl in Ha. rewrite range_empty in Ha.
    contradiction.
  - rewrite Hgen. cbn. auto.
Qed.

Lemma width_mismatch_aborts_before_index_witness :
  let r := main Example.json_loads
             (Example.decompressed_dir Example.data_path
                (Example.stream [Example.line_a; Example.line_b]))
             Example.uneven_model Example.data_path 1 "q" 5 in
  outcome r = Uncaught ValueError /\
  corpus_embeddings r = None /\ index r = None /\ saved r = no_artifacts.
Proof.
  apply (width_mismatch_aborts_before_index Example.json_loads
           (Example.decompressed_dir Example.data_path
              (Example.stream [Example.line_a; Example.line_b]))
           Example.uneven_model Example.data_path "q" 1 5 0 1
           {| ncols := 4; rows := [Example.vec [0; 0; 0; 0]%Z] |}
           {| ncols := 5; rows := [Example.vec [0; 0; 0; 0; 0]%Z] |}).
  - reflexivity.
  - lia.
  - vm_compute; reflexivity.
  - vm_compute; reflexivity.
  - simpl; lia.
Defined.

(** C1: in every run that saves an id list, with an embedding function
    that returns one row per text, the saved matrix, the saved index, the
    loaded articles and the id list have the same length, and at every
    position [i] the id is the id of article [i], row [i] of the matrix is
    the row the embedding function returned for the text of article [i]
    (row [i mod cs] of the output for chunk [i / cs], whose text number
    [i mod cs] is that text), and vector [i] of the index is row [i] of the
    matrix; what is saved is what was held in memory.  When the function
    maps each text to a fixed vector, row [i] is the vector of the text of
    article [i]. *)
Theorem ids_matrix_and_index_aligned
  (json_loads : string -> result pyval) (fs : filesystem)
  (model : SentenceTransformer)
  (data_path query : string) (cs k : nat) (ids : list pyval) :
  row_per_text model ->
  let r := main json_loads fs model data_path cs query k in
  let corpus_texts := map Article.text (wikipedia_articles r) in
  wikipedia_corpus_ids_json (saved r) = Some ids ->
  exists matrix idx,
    wikipedia_corpus_embeddings_npy (saved r) = Some matrix /\
    wikipedia_faiss_index_bin (saved r) = Some idx /\
    corpus_embeddings r = Some matrix /\
    index r = Some idx /\
    wikipedia_articles r = load_wikipedia_articles json_loads fs data_path /\
    List.length ids = List.length (wikipedia_articles r) /\
    List.length (rows matrix) = List.length ids /\
    Faiss.ntotal idx = List.length ids /\
    forall i a,
      nth_error (wikipedia_articles r) i = Some a ->
      let chunk := Py.slice corpus_texts (i / cs * cs) (i / cs * cs + cs) in
      nth_error ids i = Some (Article.id a) /\
      nth_error chunk (i mod cs) = Some (Article.text a) /\
      nth_error (rows matrix) i
      = nth_error (rows (encode model chunk)) (i mod cs) /\
      nth_error (Faiss.xb idx) i = nth_error (rows matrix) i /\
      forall dim enc, per_text model dim enc ->
                      nth_error (rows matrix) i = Some (enc (Article.text a)).
Proof.
  intros Hm r. subst r. unfold main.
  destruct (exists_ fs data_path); cbn [negb]; [|discriminate].
  destruct (load_wikipedia_articles json_loads fs data_path) as [|a0 l] eqn:E;
    [discriminate|].
  set (articles := a0 :: l).
  destruct (generate_embeddings model (map Article.text articles) cs)
    as [matrix|t] eqn:G; [|discriminate].
  destruct (generate_embeddings_rows _ _ _ _ G) as [Hcs Hrows].
  assert (Hlen : List.length (rows matrix) = List.length articles).
  { rewrite Hrows.
    rewrite (chunked_length (fun chunk => rows (encode model chunk)) Hm
               (map Article.text articles) cs Hcs).
    apply length_map. }
  rewrite build_faiss_index_rows
    by (intros H0; rewrite H0 in Hlen; discriminate Hlen).
  cbn [saved save_artifacts wikipedia_corpus_ids_json
       wikipedia_corpus_embeddings_npy wikipedia_faiss_index_bin
       corpus_embeddings index wikipedia_articles].
  intros [= <-].
  change (Article.id a0 :: map Article.id l) with (map Article.id articles).
  exists matrix, {| Faiss.d := ncols matrix; Faiss.xb := rows matrix |}.
  repeat split; try reflexivity.
  - apply length_map.
  - now rewrite length_map.
  - unfold Faiss.ntotal; cbn [Faiss.xb]. now rewrite length_map.
  - now rewrite nth_error_map, H.
  - rewrite (nth_error_chunk_text _ cs Hcs), nth_error_map. now rewrite H.
  - rewrite Hrows.
    apply (nth_error_chunked (fun chunk => rows (encode model chunk)) Hm
             (map Article.text articles) cs Hcs).
    rewrite length_map. apply nth_error_Some. congruence.
  - intros dim enc [_ Henc].
    rewrite Hrows.
    rewrite (nth_error_chunked (fun chunk => rows (encode model chunk)) Hm
               (map Article.text articles) cs Hcs)
      by (rewrite length_map; apply nth_error_Some; congruence).
    rewrite Henc. cbn [rows].
    rewrite nth_error_map, (nth_error_chunk_text _ cs Hcs), nth_error_map.
    now rewrite H.
Qed.

Lemma ids_matrix_and_index_aligned_witness :
  let r := main Example.json_loads Example.abc_dir Example.plane_model
             Example.data_path 2 "q" 2 in
  let corpus_texts := map Article.text (wikipedia_articles r) in
  exists matrix idx,
    wikipedia_corpus_embeddings_npy (saved r) = Some matrix /\
    wikipedia_faiss_index_bin (saved r) = Some idx /\
    corpus_embeddings r = Some matrix /\
    index r = Some idx /\
    wikipedia_articles r
    = load_wikipedia_articles Example.json_loads Example.abc_dir
        Example.data_path /\
    3 = List.length (wikipedia_articles r) /\
    List.length (rows matrix) = 3 /\
    Faiss.ntotal idx = 3 /\
    forall i a,
      nth_error (wikipedia_articles r) i = Some a ->
      let chunk := Py.slice corpus_texts (i / 2 * 2) (i / 2 * 2 + 2) in
      nth_error [PStr "a"; PStr "b"; PStr "c"] i = Some (Article.id a) /\
      nth_error chunk (i mod 2) = Some (Article.text a) /\
      nth_error (rows matrix) i
      = nth_error (rows (encode Example.plane_model chunk)) (i mod 2) /\
      nth_error (Faiss.xb idx) i = nth_error (rows matrix) i /\
      forall dim enc, per_text Example.plane_model dim enc ->
                      nth_error (rows matrix) i = Some (enc (Article.text a)).
Proof.
  apply (ids_matrix_and_index_aligned Example.json_loads Example.abc_dir
           Example.plane_model Example.data_path "q" 2 2
           [PStr "a"; PStr "b"; PStr "c"]
           (per_text_row_per_text _ _ _ plane_model_per_text)).
  vm_compute; reflexivity.
Defined.

(** ** The retrieval test *)

(** C2: on the index built from the rows (0,0), (1,0), (5,5), with the id
    list a, b, c, the query (0,0) with k = 2 reports exactly (a, 0.0) and
    (b, 1.0), in this order; the distances are squared, as the third
    neighbour shows with k = 3: (c, 50.0). *)
Theorem three_document_scenario (articles : list Article.t) :
  map Article.id articles = [PStr "a"; PStr "b"; PStr "c"] ->
  exists idx lines2 lines3,
    build_faiss_index
      {| ncols := 2;
         rows := [float_vector [0; 0]%Z; float_vector [1; 0]%Z;
                  float_vector [5; 5]%Z] |} = Go idx /\
    search_and_report articles (map Article.id articles) idx
      (Numpy.array1 (float_vector [0; 0]%Z)) 2 = (lines2, None) /\
    results lines2 = [(PStr "a", F32.zero); (PStr "b", F32.one)] /\
    search_and_report articles (map Article.id articles) idx
      (Numpy.array1 (float_vector [0; 0]%Z)) 3 = (lines3, None) /\
    results lines3 = [(PStr "a", F32.zero); (PStr "b", F32.one);
                      (PStr "c", F32.of_Z 50)].
Proof.
  intros Hids.
  destruct articles as [|[i1 t1 x1] [|[i2 t2 x2] [|[i3 t3 x3] [|a4 l]]]];
    try discriminate Hids.
  cbn in Hids. injection Hids as -> -> ->.
  eexists. eexists. eexists.
  split; [vm_compute; reflexivity|].
  split; [vm_compute; reflexivity|].
  split; [vm_compute; reflexivity|].
  split; vm_compute; reflexivity.
Qed.

Lemma three_document_scenario_witness :
  exists idx lines2 lines3,
    build_faiss_index
      {| ncols := 2;
         rows := [float_vector [0; 0]%Z; float_vector [1; 0]%Z;
                  float_vector [5; 5]%Z] |} = Go idx /\
    search_and_report
      [Example.article_a; Example.article_b; Example.article_c]
      (map Article.id [Example.article_a; Example.article_b; Example.article_c])
      idx (Numpy.array1 (float_vector [0; 0]%Z)) 2 = (lines2, None) /\
    results lines2 = [(PStr "a", F32.zero); (PStr "b", F32.one)] /\
    search_and_report
      [Example.article_a; Example.article_b; Example.article_c]
      (map Article.id [Example.article_a; Example.article_b; Example.article_c])
      idx (Numpy.array1 (float_vector [0; 0]%Z)) 3 = (lines3, None) /\
    results lines3 = [(PStr "a", F32.zero); (PStr "b", F32.one);
                      (PStr "c", F32.of_Z 50)].
Proof.
  apply (three_document_scenario
           [Example.article_a; Example.article_b; Example.article_c]).
  reflexivity.
Defined.

(** C7, the code at a failing input: the script, run on the corpus of the
    three documents a, b and c, asks for five neighbours.  The search
    labels the two missing neighbours [-1]; the test [idx < len(corpus_ids)]
    lets [-1] pass, [corpus_ids[-1]] is the last id, and two more ranks
    are printed for document c, with the largest float as distance. *)
Theorem missing_neighbours_reported_as_last_document :
  let r := script Example.json_loads Example.abc_dir Example.plane_model in
  index r = Some {| Faiss.d := 2;
                    Faiss.xb := [float_vector [0; 0]%Z; float_vector [1; 0]%Z;
                                 float_vector [5; 5]%Z] |} /\
  Faiss.search {| Faiss.d := 2;
                  Faiss.xb := [float_vector [0; 0]%Z; float_vector [1; 0]%Z;
                               float_vector [5; 5]%Z] |}
    (Numpy.array1 (float_vector [0; 0]%Z)) 5
  = Ok ([[F32.zero; F32.one; F32.of_Z 50; F32.FLT_MAX; F32.FLT_MAX]],
        [[0; 1; 2; -1; -1]%Z]) /\
  printed r = [Rank 1 (PStr "A") (PStr "a") F32.zero;
               Rank 2 (PStr "B") (PStr "b") F32.one;
               Rank 3 (PStr "C") (PStr "c") (F32.of_Z 50);
               Rank 4 (PStr "C") (PStr "c") F32.FLT_MAX;
               Rank 5 (PStr "C") (PStr "c") F32.FLT_MAX] /\
  outcome r = Completed.
Proof. vm_compute. repeat split. Qed.

(** ** From a record to an article *)

Lemma article_of_record_dict (d : list (string * pyval)) :
  article_of_record (PDict d)
  = match Py.iter (text_data_of d) with
    | Raise e => Raise e
    | Ok items =>
        match Py.lookup "title" d with
        | None => Raise (KeyError "title")
        | Some t =>
            Ok (Article.make (id_of d t) t
                  (Py.join " " (flat_map sentences_of_item items)))
        end
    end.
Proof.
  unfold article_of_record, Py.get, Py.getitem, text_data_of, id_of, bind.
  destruct (Py.lookup "text" d) as [v|];
    (destruct (Py.iter _) as [items|e]; [|reflexivity]);
    (destruct (Py.lookup "title" d) as [t|]; [|reflexivity]);
    destruct (Py.lookup "id" d); reflexivity.
Qed.

Lemma article_of_record_not_dict (doc : pyval) :
  (forall d, doc <> PDict d) -> article_of_record doc = Raise AttributeError.
Proof.
  intros H. destruct doc; try reflexivity. now destruct (H d).
Qed.

Lemma iter_raises_TypeError (v : pyval) (e : exn) :
  Py.iter v = Raise e -> e = TypeError.
Proof. destruct v; simpl; congruence. Qed.

Lemma article_of_record_Ok (doc : pyval) (a : Article.t) :
  article_of_record doc = Ok a ->
  exists d t items,
    doc = PDict d /\ Py.lookup "title" d = Some t /\
    Py.iter (text_data_of d) = Ok items /\
    a = Article.make (id_of d t) t
          (Py.join " " (flat_map sentences_of_item items)).
Proof.
  intros H. destruct doc; try discriminate H.
  rewrite article_of_record_dict in H.
  destruct (Py.iter (text_data_of d)) as [items|e] eqn:Hit; [|discriminate].
  destruct (Py.lookup "title" d) as [t|] eqn:Ht; [|discriminate].
  injection H as <-. now exists d, t, items.
Qed.

Lemma article_of_record_never_JSONDecodeError (doc : pyval) :
  article_of_record doc <> Raise JSONDecodeError.
Proof.
  destruct doc; try discriminate.
  rewrite article_of_record_dict.
  destruct (Py.iter (text_data_of d)) as [items|e] eqn:Hit.
  - destruct (Py.lookup "title" d); discriminate.
  - apply iter_raises_TypeError in Hit. subst e. discriminate.
Qed.


Section LoaderFacts.

Variable json_loads : string -> result pyval.

(** The inner [try], case by case: the record part never raises the
    exception the handler catches. *)
Lemma process_line_cases (l : string) :
  process_line json_loads l
  = if (Py.strip l =? "")%string then Ok []
    else match json_loads (Py.strip l) with
         | Raise JSONDecodeError => Ok []
         | Raise e => Raise e
         | Ok doc => match article_of_record doc with
                     | Ok a => Ok [a]
                     | Raise e => Raise e
                     end
         end.
Proof.
  unfold process_line.
  destruct (Py.strip l =? "")%string; [reflexivity|].
  destruct (json_loads (Py.strip l)) as [doc|e]; [|reflexivity].
  cbn [bind].
  destruct (article_of_record doc) as [a|e] eqn:Ha; [reflexivity|].
  destruct e; try reflexivity.
  now destruct (article_of_record_never_JSONDecodeError doc).
Qed.

(** A line yields at most one article, and yields one exactly when it is
    title-bearing, unless it raises. *)
Lemma process_line_Ok (l : string) (new : list Article.t) :
  process_line json_loads l = Ok new ->
  List.length new = if title_bearing json_loads l then 1 else 0.
Proof.
  rewrite process_line_cases. unfold title_bearing.
  destruct (Py.strip l =? "")%string; cbn [negb andb];
    [now intros [= <-]|].
  destruct (json_loads (Py.strip l)) as [doc|e].
  - destruct (article_of_record doc) as [a|e] eqn:Ha; [|discriminate].
    intros [= <-].
    destruct (article_of_record_Ok _ _ Ha) as (d & t & items & -> & Ht & _).
    now rewrite Ht.
  - destruct e; try discriminate. now intros [= <-].
Qed.

Lemma read_file_app (pre post : list read_event) (articles : list Article.t) :
  read_file json_loads (pre ++ post) articles
  = match read_file json_loads pre articles with
    | (kept, None) => read_file json_loads post kept
    | (kept, Some e) => (kept, Some e)
    end.
Proof.
  revert articles. induction pre as [|ev pre IH]; intros articles.
  - reflexivity.
  - destruct ev as [l|]; [|reflexivity].
    simpl. destruct (process_line json_loads l); [apply IH|reflexivity].
Qed.

(** What a file adds to the articles: the articles of its reads, in
    order, up to the first read that fails. *)
Lemma read_file_articles (stream : list read_event) (articles : list Article.t) :
  fst (read_file json_loads stream articles)
  = articles ++ articles_of json_loads (before_failure json_loads stream).
Proof.
  revert articles. induction stream as [|ev stream IH]; intros articles.
  - simpl. now rewrite app_nil_r.
  - destruct ev as [l|]; simpl.
    + destruct (process_line json_loads l) as [new|e] eqn:E; simpl.
      * rewrite IH, E. now rewrite app_assoc.
      * now rewrite app_nil_r.
    + now rewrite app_nil_r.
Qed.

Lemma read_file_error (stream : list read_event) (articles : list Article.t) :
  snd (read_file json_loads stream articles) = None <->
  forallb (fun ev => negb (fails json_loads ev)) stream = true.
Proof.
  revert articles. induction stream as [|ev stream IH]; intros articles.
  - simpl. tauto.
  - destruct ev as [l|]; simpl.
    + destruct (process_line json_loads l) as [new|e]; simpl.
      * apply IH.
      * split; discriminate.
    + split; discriminate.
Qed.

Lemma before_failure_all (stream : list read_event) :
  forallb (fun ev => negb (fails json_loads ev)) stream = true ->
  before_failure json_loads stream = stream.
Proof.
  induction stream as [|ev stream IH]; [reflexivity|].
  simpl. destruct (fails json_loads ev); simpl; [discriminate|].
  intros H. now rewrite IH.
Qed.

(** Up to the first failure, the articles and the title-bearing lines
    are equally many. *)
Lemma articles_before_failure_count (stream : list read_event) :
  List.length (articles_of json_loads (before_failure json_loads stream))
  = count_title_bearing json_loads (before_failure json_loads stream).
Proof.
  induction stream as [|ev stream IH]; [reflexivity|].
  unfold count_title_bearing, articles_of in *.
  simpl. destruct ev as [l|]; simpl; [|reflexivity].
  destruct (process_line json_loads l) as [new|e] eqn:E; simpl;
    [|reflexivity].
  rewrite E, length_app, IH.
  rewrite (process_line_Ok l new E).
  destruct (title_bearing json_loads l); reflexivity.
Qed.

Lemma process_files_articles (fs : filesystem) (files : list string)
  (articles : list Article.t) (errors : list (string * exn)) :
  fst (process_files json_loads fs files articles errors)
  = articles
    ++ flat_map (fun f => articles_of json_loads
                            (before_failure json_loads (stream_of fs f)))
                files.
Proof.
  revert articles errors.
  induction files as [|f files IH]; intros articles errors.
  - simpl. now rewrite app_nil_r.
  - simpl.
    pose proof (read_file_articles (stream_of fs f) articles) as Hf.
    unfold stream_of in *.
    destruct (read_file json_loads _ articles) as [kept [e|]];
      simpl in Hf; subst kept; rewrite IH; now rewrite app_assoc.
Qed.

(** The loader's result, file by file in processing order. *)
Lemma load_wikipedia_articles_by_file (fs : filesystem) (data_path : string) :
  load_wikipedia_articles json_loads fs data_path
  = flat_map (fun f => articles_of json_loads
                         (before_failure json_loads (stream_of fs f)))
             (files_to_process fs data_path).
Proof.
  unfold load_wikipedia_articles, load_wikipedia_articles_log.
  destruct (files_to_process fs data_path) as [|f files] eqn:E;
    [reflexivity|].
  apply (process_files_articles fs (f :: files) [] []).
Qed.

End LoaderFacts.

(** ** Sorting the files to process *)

Lemma string_compare_refl (a : string) : String.compare a a = Eq.
Proof.
  induction a as [|c a IH]; [reflexivity|].
  simpl. unfold Ascii.compare. now rewrite N.compare_refl.
Qed.

Lemma string_compare_lt_trans (a b c : string) :
  String.compare a b = Lt -> String.compare b c = Lt -> String.compare a c = Lt.
Proof.
  revert b c. induction a as [|x a IH]; intros [|y b] [|z c]; simpl;
    try congruence.
  unfold Ascii.compare.
  destruct (N.compare_spec (N_of_ascii x) (N_of_ascii y)) as [Exy|Lxy|Gxy];
    try discriminate;
    destruct (N.compare_spec (N_of_ascii y) (N_of_ascii z)) as [Eyz|Lyz|Gyz];
    try discriminate; intros Hab Hbc.
  - rewrite Exy, Eyz, N.compare_refl. now apply (IH b c).
  - rewrite Exy. now apply N.compare_lt_iff in Lyz as ->.
  - rewrite <- Eyz. now apply N.compare_lt_iff in Lxy as ->.
  - assert (H : (N_of_ascii x < N_of_ascii z)%N) by lia.
    now apply N.compare_lt_iff in H as ->.
Qed.

Lemma path_le_trans (a b c : string) : path_le a b -> path_le b c -> path_le a c.
Proof.
  unfold path_le, String.leb. intros Hab Hbc.
  destruct (String.compare a b) eqn:Eab; try discriminate;
    destruct (String.compare b c) eqn:Ebc; try discriminate.
  - apply String.compare_eq_iff in Eab, Ebc. subst.
    now rewrite string_compare_refl.
  - apply String.compare_eq_iff in Eab. subst. now rewrite Ebc.
  - apply String.compare_eq_iff in Ebc. subst. now rewrite Eab.
  - now rewrite (string_compare_lt_trans a b c Eab Ebc).
Qed.

Lemma insert_sorted_perm (x : string) (l : list string) :
  Permutation (Py.insert_sorted x l) (x :: l).
Proof.
  induction l as [|y l IH]; simpl; [reflexivity|].
  destruct (y <=? x)%string; [|reflexivity].
  rewrite IH. apply perm_swap.
Qed.

Lemma insert_sorted_sorted (x : string) (l : list string) :
  StronglySorted path_le l -> StronglySorted path_le (Py.insert_sorted x l).
Proof.
  induction 1 as [|y l Hl IH Hy]; simpl.
  - repeat constructor.
  - destruct (y <=? x)%string eqn:E.
    + constructor; [exact IH|].
      apply Forall_forall. intros z Hz.
      apply (Permutation_in _ (insert_sorted_perm x l)) in Hz.
      destruct Hz as [<-|Hz]; [exact E|].
      rewrite Forall_forall in Hy. now apply Hy.
    + assert (Hxy : path_le x y).
      { destruct (String.leb_total x y) as [H|H]; [exact H|congruence]. }
      constructor; [now constructor|].
      constructor; [exact Hxy|].
      apply Forall_forall. intros z Hz. rewrite Forall_forall in Hy.
      exact (path_le_trans x y z Hxy (Hy z Hz)).
Qed.

Lemma sort_from (l acc : list string) :
  StronglySorted path_le acc ->
  StronglySorted path_le (fold_left (fun a x => Py.insert_sorted x a) l acc) /\
  Permutation (fold_left (fun a x => Py.insert_sorted x a) l acc) (acc ++ l).
Proof.
  revert acc. induction l as [|x l IH]; intros acc Hacc; simpl.
  - rewrite app_nil_r. split; [exact Hacc|reflexivity].
  - destruct (IH (Py.insert_sorted x acc) (insert_sorted_sorted x acc Hacc))
      as [Hs Hp].
    split; [exact Hs|].
    rewrite Hp, insert_sorted_perm. apply Permutation_middle.
Qed.

Lemma sort_sorted (l : list string) : StronglySorted path_le (Py.sort l).
Proof. apply (sort_from l []). constructor. Qed.

Lemma sort_perm (l : list string) : Permutation (Py.sort l) l.
Proof. apply (sort_from l []). constructor. Qed.

(** A list of paths has one sorted arrangement only. *)
Lemma sorted_perm_unique (l l' : list string) :
  StronglySorted path_le l -> StronglySorted path_le l' ->
  Permutation l l' -> l = l'.
Proof.
  intros Hl. revert l'. induction Hl as [|x l Hl IH Hx]; intros l' Hl' Hp.
  - now apply Permutation_nil in Hp.
  - destruct Hl' as [|y l' Hl' Hy].
    + apply Permutation_sym, Permutation_nil in Hp. discriminate.
    + assert (Exy : x = y).
      { rewrite Forall_forall in Hx, Hy.
        assert (Hxin : In x (y :: l')) by
          (apply (Permutation_in _ Hp); now left).
        assert (Hyin : In y (x :: l)) by
          (apply (Permutation_in _ (Permutation_sym Hp)); now left).
        destruct Hxin as [->|Hxin]; [reflexivity|].
        destruct Hyin as [->|Hyin]; [reflexivity|].
        apply String.leb_antisym; [now apply Hx|now apply Hy]. }
      subst y. f_equal. apply IH; [exact Hl'|].
      now apply Permutation_cons_inv in Hp.
Qed.

Lemma sort_permutation (l l' : list string) :
  Permutation l l' -> Py.sort l = Py.sort l'.
Proof.
  intros Hp. apply sorted_perm_unique; try apply sort_sorted.
  now rewrite !sort_perm.
Qed.

(** ** The loader *)

Lemma length_flat_map_sum {A B : Type} (f : A -> list B) (l : list A) :
  List.length (flat_map f l) = list_sum (map (fun x => List.length (f x)) l).
Proof.
  induction l as [|x l IH]; simpl; [reflexivity|].
  now rewrite length_app, IH.
Qed.

Lemma candidate_files_enumeration (fs fs' : filesystem) (data_path : string) :
  same_up_to_enumeration fs fs' data_path ->
  Permutation (candidate_files fs data_path) (candidate_files fs' data_path).
Proof.
  intros (Hfile & Hdir & _ & Hwalk). unfold candidate_files.
  rewrite !Hfile, Hdir.
  destruct (isfile fs data_path); [reflexivity|].
  destruct (isdir fs data_path); [|reflexivity].
  destruct (isfile fs _); [reflexivity|exact Hwalk].
Qed.

Lemma in_articles_of (json_loads : string -> result pyval)
  (stream : list read_event) (a : Article.t) :
  In a (articles_of json_loads (before_failure json_loads stream)) ->
  exists l, In (Line l) stream /\ process_line json_loads l = Ok [a].
Proof.
  induction stream as [|ev stream IH]; simpl; [contradiction|].
  destruct ev as [l|]; simpl; [|contradiction].
  destruct (process_line json_loads l) as [new|e] eqn:E; simpl;
    [|contradiction].
  rewrite E. intros H. apply in_app_or in H. destruct H as [H|H].
  - exists l. split; [now left|].
    pose proof (process_line_Ok json_loads l new E) as Hlen.
    destruct new as [|a' [|a'' new]]; try contradiction;
      [|destruct (title_bearing json_loads l); discriminate].
    destruct H as [->|[]]. exact E.
  - destruct (IH H) as (l' & Hin & Hl'). exists l'. split; [now right|exact Hl'].
Qed.






Lemma in_sentences (items : list pyval) (s : string) :
  In s (flat_map sentences_of_item items) <->
  In (PStr s) items \/ exists sub, In (PList sub) items /\ In (PStr s) sub.
Proof.
  rewrite in_flat_map. split.
  - intros (item & Hitem & Hs). destruct item; simpl in Hs; try contradiction.
    + destruct Hs as [->|[]]. now left.
    + right. exists l. split; [exact Hitem|].
      apply in_flat_map in Hs. destruct Hs as (x & Hx & Hs).
      destruct x; simpl in Hs; try contradiction.
      destruct Hs as [->|[]]. exact Hx.
  - intros [H|(sub & Hsub & H)].
    + exists (PStr s). split; [exact H|now left].
    + exists (PList sub). split; [exact Hsub|].
      simpl. apply in_flat_map. exists (PStr s). split; [exact H|now left].
Qed.

(** The ways a read ends its file. *)
Lemma article_of_record_raises (doc : pyval) (e : exn) :
  article_of_record doc = Raise e <-> record_raises doc e.
Proof.
  unfold record_raises. split.
  - destruct doc;
      try (intros [= <-]; left; split; [intros d0 H; discriminate H|reflexivity]).
    rewrite article_of_record_dict. intros H. right. exists d.
    split; [reflexivity|].
    destruct (Py.iter (text_data_of d)) as [items|e'] eqn:Hit.
    + destruct (Py.lookup "title" d) eqn:Ht; [discriminate|].
      injection H as <-. right. repeat split. now exists items.
    + injection H as <-. left. split; [now exists e'|].
      exact (iter_raises_TypeError _ _ Hit).
  - intros [[Hnot ->]|(d & -> & [[[e' Hit] ->]|([items Hit] & Ht & ->)])].
    + now apply article_of_record_not_dict.
    + rewrite article_of_record_dict, Hit.
      now rewrite (iter_raises_TypeError _ _ Hit).
    + now rewrite article_of_record_dict, Hit, Ht.
Qed.

Lemma process_line_raises (json_loads : string -> result pyval)
  (l : string) (e : exn) :
  process_line json_loads l = Raise e <-> raised_by json_loads (Line l) e.
Proof.
  rewrite process_line_cases. unfold raised_by.
  destruct (Py.strip l =? "")%string.
  { split; [discriminate|]. intros [H _]. discriminate H. }
  destruct (json_loads (Py.strip l)) as [doc|e0].
  - destruct (article_of_record doc) as [a|e1] eqn:Hrec.
    + split; [discriminate|]. intros [_ [[H _]|(doc' & [= <-] & H)]];
        [discriminate H|].
      apply article_of_record_raises in H. congruence.
    + split.
      * intros [= <-]. split; [reflexivity|]. right. exists doc.
        split; [reflexivity|]. now apply article_of_record_raises.
      * intros [_ [[H _]|(doc' & [= <-] & H)]]; [discriminate H|].
        apply article_of_record_raises in H. congruence.
  - split.
    + intros H. split; [reflexivity|]. left.
      destruct e0; try discriminate H; injection H as <-;
        (split; [reflexivity|discriminate]).
    + intros [_ [[Heq Hne]|(doc & H & _)]]; [|discriminate H].
      injection Heq as ->.
      destruct e; try reflexivity. congruence.
Qed.

Lemma fails_raised_by (json_loads : string -> result pyval) (ev : read_event) :
  fails json_loads ev = true <-> exists e, raised_by json_loads ev e.
Proof.
  destruct ev as [l|e0].
  - simpl fails. split.
    + destruct (process_line json_loads l) as [new|e] eqn:E; [discriminate|].
      intros _. exists e. now apply process_line_raises.
    + intros [e H]. apply process_line_raises in H. now rewrite H.
  - simpl. split; [intros _; now exists e0|reflexivity].
Qed.

(** C6, as amended: the loader returns, for the files sorted by full path
    and for the lines of each file in order, the articles of the
    title-bearing lines that come before the first failing read of their
    file; so the number of articles is the number of these lines, and the
    number of all title-bearing lines when no read fails.  A read fails
    when the read itself raises, when [json.loads] raises on the line
    something other than a [JSONDecodeError], or when the record of the
    line raises: it is no object, its text cannot be iterated, or it has no
    title.  The result does not depend on the order in which the directory
    walk enumerates the chunks. *)
Theorem load_count_and_order
  (json_loads : string -> result pyval) (fs : filesystem) (data_path : string) :
  let files := files_to_process fs data_path in
  let loaded := load_wikipedia_articles json_loads fs data_path in
  StronglySorted path_le files /\
  Permutation files (candidate_files fs data_path) /\
  loaded = flat_map (fun f => articles_of json_loads
                                (before_failure json_loads (stream_of fs f)))
                    files /\
  List.length loaded
  = list_sum (map (fun f => count_title_bearing json_loads
                              (before_failure json_loads (stream_of fs f)))
                  files) /\
  ((forall f, In f files ->
      forallb (fun ev => negb (fails json_loads ev)) (stream_of fs f) = true) ->
   List.length loaded
   = list_sum (map (fun f => count_title_bearing json_loads (stream_of fs f))
                   files)) /\
  (forall fs', same_up_to_enumeration fs fs' data_path ->
     load_wikipedia_articles json_loads fs' data_path = loaded) /\
  (forall ev, fails json_loads ev = true <->
              exists e, raised_by json_loads ev e).
Proof.
  intros files loaded. subst files loaded.
  split; [apply sort_sorted|].
  split; [apply sort_perm|].
  split; [apply load_wikipedia_articles_by_file|].
  assert (Hcount :
    List.length (load_wikipedia_articles json_loads fs data_path)
    = list_sum (map (fun f => count_title_bearing json_loads
                                (before_failure json_loads (stream_of fs f)))
                    (files_to_process fs data_path))).
  { rewrite load_wikipedia_articles_by_file, length_flat_map_sum.
    f_equal. apply map_ext. intros f. apply articles_before_failure_count. }
  split; [exact Hcount|]. split.
  - intros Hok. rewrite Hcount. f_equal. apply map_ext_in.
    intros f Hf. now rewrite before_failure_all by now apply Hok.
  - split; [|apply fails_raised_by].
    intros fs' Hsame.
    rewrite !load_wikipedia_articles_by_file.
    unfold files_to_process.
    rewrite (sort_permutation _ _ (candidate_files_enumeration _ _ _ Hsame)).
    destruct Hsame as (_ & _ & Hopen & _).
    apply flat_map_ext. intros f. unfold stream_of. now rewrite Hopen.
Qed.

Lemma load_count_and_order_witness :
  let loaded :=
    load_wikipedia_articles Example.json_loads Example.shards_one "data" in
  loaded = [Example.article_a; Example.article_b; Example.article_c] /\
  List.length loaded
  = list_sum (map (fun f => count_title_bearing Example.json_loads
                              (stream_of Example.shards_one f))
                  (files_to_process Example.shards_one "data")) /\
  load_wikipedia_articles Example.json_loads Example.shards_two "data" = loaded.
Proof.
  pose proof (load_count_and_order Example.json_loads Example.shards_one "data")
    as H.
  cbv zeta in H. destruct H as (_ & _ & _ & _ & Hall & Henum & _).
  split; [vm_compute; reflexivity|]. split.
  - apply Hall. intros f Hf. vm_compute in Hf.
    destruct Hf as [<-|[<-|[]]]; vm_compute; reflexivity.
  - apply Henum. repeat split. vm_compute. apply perm_swap.
Defined.

(** C6 as stated fails: a file holds a record without title and then the
    line of document a; that line is title-bearing, yet nothing is
    loaded. *)
Lemma title_bearing_line_after_failure_is_not_loaded :
  let fs := Example.decompressed_dir Example.data_path
              (Example.stream [Example.line_no_title; Example.line_a]) in
  list_sum (map (fun f => count_title_bearing Example.json_loads (stream_of fs f))
                (files_to_process fs Example.data_path)) = 1 /\
  List.length (load_wikipedia_articles Example.json_loads fs Example.data_path)
  = 0.
Proof. vm_compute. split; reflexivity. Qed.




(** C9, as amended: every loaded article comes from a line of a processed
    file that decodes to a JSON object with a [title] key; the title of the
    article is the value of that key, whatever it is, the empty string
    included; its id is the value of [id] when the object has one and the
    title otherwise; its text joins with single spaces the sentences of the
    [text] value (the empty list when absent): the strings among its
    elements and the strings among the elements of its list elements. *)
Theorem loaded_article_fields
  (json_loads : string -> result pyval) (fs : filesystem) (data_path : string)
  (a : Article.t) :
  In a (load_wikipedia_articles json_loads fs data_path) ->
  exists file_path l d t items,
    In file_path (files_to_process fs data_path) /\
    In (Line l) (stream_of fs file_path) /\
    json_loads (Py.strip l) = Ok (PDict d) /\
    Py.lookup "title" d = Some t /\
    Article.title a = t /\
    Article.id a = match Py.lookup "id" d with
                   | Some v => v
                   | None => t
                   end /\
    Py.iter (match Py.lookup "text" d with
             | Some v => v
             | None => PList []
             end) = Ok items /\
    (forall elements, Py.lookup "text" d = Some (PList elements) ->
                      items = elements) /\
    Article.text a = String.concat " " (flat_map sentences_of_item items) /\
    (forall s, In s (flat_map sentences_of_item items) <->
               In (PStr s) items \/
               exists sub, In (PList sub) items /\ In (PStr s) sub).
Proof.
  rewrite load_wikipedia_articles_by_file, in_flat_map.
  intros (file_path & Hfile & Ha).
  apply in_articles_of in Ha. destruct Ha as (l & Hl & Hline).
  rewrite process_line_cases in Hline.
  destruct (Py.strip l =? "")%string; [discriminate|].
  destruct (json_loads (Py.strip l)) as [doc|e] eqn:Hdoc;
    [|destruct e; discriminate].
  destruct (article_of_record doc) as [a'|e] eqn:Hrec; [|discriminate].
  injection Hline as ->.
  destruct (article_of_record_Ok _ _ Hrec) as (d & t & items & -> & Ht & Hit & ->).
  exists file_path, l, d, t, items.
  repeat split; try assumption; try reflexivity.
  - intros elements He. unfold text_data_of in Hit. rewrite He in Hit.
    simpl in Hit. congruence.
  - apply in_sentences.
  - apply in_sentences.
Qed.

Lemma loaded_article_fields_witness :
  exists file_path l d t items,
    In file_path (files_to_process Example.abc_dir Example.data_path) /\
    In (Line l) (stream_of Example.abc_dir file_path) /\
    Example.json_loads (Py.strip l) = Ok (PDict d) /\
    Py.lookup "title" d = Some t /\
    Article.title Example.article_c = t /\
    Article.id Example.article_c = match Py.lookup "id" d with
                                   | Some v => v
                                   | None => t
                                   end /\
    Py.iter (match Py.lookup "text" d with
             | Some v => v
             | None => PList []
             end) = Ok items /\
    (forall elements, Py.lookup "text" d = Some (PList elements) ->
                      items = elements) /\
    Article.text Example.article_c
    = String.concat " " (flat_map sentences_of_item items) /\
    (forall s, In s (flat_map sentences_of_item items) <->
               In (PStr s) items \/
               exists sub, In (PList sub) items /\ In (PStr s) sub).
Proof.
  apply (loaded_article_fields Example.json_loads Example.abc_dir
           Example.data_path Example.article_c).
  vm_compute. right. right. left. reflexivity.
Defined.

(** C9 as stated fails: a record whose title is the empty string survives
    parsing, as an article with an empty title. *)
Lemma article_with_empty_title_is_loaded :
  Example.json_loads (Py.strip (Example.line_empty_title ++ Example.newline))
  = Ok (PDict [("title", PStr "")]) /\
  load_wikipedia_articles Example.json_loads
    (Example.decompressed_dir Example.data_path
       (Example.stream [Example.line_empty_title])) Example.data_path
  = [Article.make (PStr "") (PStr "") ""].
Proof. vm_compute. split; reflexivity. Qed.





(** * Further properties of the script *)

(** ** Strings *)

Lemma lstrip_whitespace_only (cps : list string) :
  forallb Py.isspace cps = true -> Py.lstrip cps = [].
Proof.
  induction cps as [|cp cps IH]; simpl; [reflexivity|].
  destruct (Py.isspace cp); simpl; [exact IH|discriminate].
Qed.

Lemma strip_whitespace_only (l : string) :
  whitespace_only l = true -> Py.strip l = EmptyString.
Proof.
  intros H. unfold Py.strip.
  now rewrite (lstrip_whitespace_only (Py.code_points l) H).
Qed.

Lemma list_ascii_of_append (a b : string) :
  list_ascii_of_string (a ++ b)
  = list_ascii_of_string a ++ list_ascii_of_string b.
Proof. induction a as [|c a IH]; simpl; [reflexivity|now rewrite IH]. Qed.

Lemma string_of_list_ascii_app (x y : list ascii) :
  string_of_list_ascii (x ++ y)
  = (string_of_list_ascii x ++ string_of_list_ascii y)%string.
Proof. induction x as [|c x IH]; simpl; [reflexivity|now rewrite IH]. Qed.

Lemma reverse_append (a b : string) :
  Py.reverse (a ++ b) = (Py.reverse b ++ Py.reverse a)%string.
Proof.
  unfold Py.reverse.
  now rewrite list_ascii_of_append, rev_app_distr, string_of_list_ascii_app.
Qed.

Lemma prefix_append_true (p x y : string) :
  String.prefix p x = true -> String.prefix p (x ++ y) = true.
Proof.
  revert x. induction p as [|c p IH]; intros x;
    [now destruct (x ++ y)%string|].
  destruct x as [|c' x]; simpl; [discriminate|].
  destruct (Ascii.ascii_dec c c'); [apply IH|discriminate].
Qed.

Lemma prefix_append_short (p x y : string) :
  String.length p <= String.length x ->
  String.prefix p (x ++ y) = String.prefix p x.
Proof.
  revert x. induction p as [|c p IH]; intros x Hlen;
    [now destruct (x ++ y)%string, x|].
  destruct x as [|c' x]; simpl in *; [lia|].
  destruct (Ascii.ascii_dec c c'); [apply IH; lia|reflexivity].
Qed.

Lemma length_reverse (s : string) :
  String.length (Py.reverse s) = String.length s.
Proof.
  unfold Py.reverse.
  assert (H : forall l, String.length (string_of_list_ascii l) = List.length l).
  { induction l as [|c l IH]; simpl; [reflexivity|now rewrite IH]. }
  rewrite H, length_rev.
  induction s as [|c s IH]; simpl; [reflexivity|now rewrite IH].
Qed.

Lemma endswith_append_true (a b suffix : string) :
  Py.endswith b suffix = true -> Py.endswith (a ++ b) suffix = true.
Proof.
  unfold Py.endswith. rewrite reverse_append. apply prefix_append_true.
Qed.

Lemma endswith_append_short (a b suffix : string) :
  String.length suffix <= String.length b ->
  Py.endswith (a ++ b) suffix = Py.endswith b suffix.
Proof.
  intros H. unfold Py.endswith. rewrite reverse_append.
  apply prefix_append_short. now rewrite !length_reverse.
Qed.

Lemma append_assoc (a b c : string) :
  ((a ++ b) ++ c)%string = (a ++ b ++ c)%string.
Proof. induction a as [|x a IH]; simpl; [reflexivity|now rewrite IH]. Qed.

(** A joined path ends like its last component. *)
Lemma path_join_cases (a b : string) :
  Py.path_join a b = b \/ exists x, Py.path_join a b = (x ++ b)%string.
Proof.
  unfold Py.path_join.
  destruct (Py.startswith b "/"); [now left|]. right.
  destruct ((a =? "")%string || Py.endswith a "/").
  - now exists a.
  - exists (a ++ "/")%string. now rewrite append_assoc.
Qed.

Lemma endswith_path_join_true (a b suffix : string) :
  Py.endswith b suffix = true -> Py.endswith (Py.path_join a b) suffix = true.
Proof.
  intros H. destruct (path_join_cases a b) as [->|[x ->]]; [exact H|].
  now apply endswith_append_true.
Qed.

Lemma endswith_path_join_short (a b suffix : string) :
  String.length suffix <= String.length b ->
  Py.endswith (Py.path_join a b) suffix = Py.endswith b suffix.
Proof.
  intros H. destruct (path_join_cases a b) as [->|[x ->]]; [reflexivity|].
  now apply endswith_append_short.
Qed.

(** ** Lines, files and the error log *)

Lemma process_line_skips (json_loads : string -> result pyval) (l : string) :
  whitespace_only l = true \/ json_loads (Py.strip l) = Raise JSONDecodeError ->
  process_line json_loads l = Ok [].
Proof.
  rewrite process_line_cases. intros [H|H].
  - now rewrite (strip_whitespace_only l H).
  - rewrite H. now destruct (Py.strip l =? "")%string.
Qed.

(** X1: a line of white space only, or a line the JSON decoder rejects,
    is skipped: the file is read as if the line were not there, with the
    same articles and the same error, if any. *)
Theorem blank_or_malformed_line_is_skipped
  (json_loads : string -> result pyval) (pre post : list read_event)
  (l : string) (articles : list Article.t) :
  whitespace_only l = true \/ json_loads (Py.strip l) = Raise JSONDecodeError ->
  read_file json_loads (pre ++ Line l :: post) articles
  = read_file json_loads (pre ++ post) articles.
Proof.
  intros H. rewrite !read_file_app.
  destruct (read_file json_loads pre articles) as [kept [e|]]; [reflexivity|].
  simpl. rewrite (process_line_skips json_loads l H). now rewrite app_nil_r.
Qed.

Lemma blank_or_malformed_line_is_skipped_witness :
  read_file Example.json_loads
    (Example.stream [Example.line_a]
     ++ Line Example.line_bad :: Example.stream [Example.line_b]) []
  = read_file Example.json_loads
      (Example.stream [Example.line_a] ++ Example.stream [Example.line_b]) []
  /\
  read_file Example.json_loads
    (Example.stream [Example.line_a]
     ++ Line ("  " ++ Example.newline) :: Example.stream [Example.line_b]) []
  = ([Example.article_a; Example.article_b], None).
Proof.
  split.
  - apply (blank_or_malformed_line_is_skipped Example.json_loads).
    right. vm_compute; reflexivity.
  - rewrite (blank_or_malformed_line_is_skipped Example.json_loads).
    + vm_compute; reflexivity.
    + left. vm_compute; reflexivity.
Defined.






(** A line on which [json.loads] raises [ValueError] ends its file like a
    record that raises: the line of document a after it is not read, and
    the error is printed for the file. *)
Example long_integer_ends_its_file :
  load_wikipedia_articles_log Example.json_loads
    (Example.decompressed_dir Example.data_path
       (Example.stream [Example.line_b; Example.line_long_integer;
                        Example.line_a]))
    Example.data_path
  = ([Example.article_b],
     [(Py.path_join Example.data_path decompressed_file_name, ValueError)]).
Proof. vm_compute. reflexivity. Qed.

(** ** Which files are read, and how *)

Lemma load_single_file (json_loads : string -> result pyval)
  (fs : filesystem) (data_path file_path : string) :
  candidate_files fs data_path = [file_path] ->
  files_to_process fs data_path = [file_path] /\
  load_wikipedia_articles json_loads fs data_path
  = articles_of json_loads
      (before_failure json_loads
         (open_text fs (Py.endswith file_path ".bz2") file_path)).
Proof.
  intros Hc.
  assert (Hf : files_to_process fs data_path = [file_path])
    by (unfold files_to_process; now rewrite Hc).
  split; [exact Hf|].
  rewrite load_wikipedia_articles_by_file, Hf. simpl. apply app_nil_r.
Qed.

Lemma decompressed_file_is_not_bz2 (data_path : string) :
  Py.endswith (Py.path_join data_path decompressed_file_name) ".bz2" = false.
Proof.
  rewrite endswith_path_join_short; [reflexivity|].
  apply Nat.leb_le. reflexivity.
Qed.

(** X3: when the data path is a file, that file alone is read; when it is
    a directory that holds the decompressed file, that file alone is read,
    as plain text, whatever chunks the directory holds besides: the walk
    is not consulted. *)
Theorem single_file_modes
  (json_loads : string -> result pyval) (fs : filesystem) (data_path : string) :
  (isfile fs data_path = true ->
   files_to_process fs data_path = [data_path] /\
   load_wikipedia_articles json_loads fs data_path
   = articles_of json_loads
       (before_failure json_loads
          (open_text fs (Py.endswith data_path ".bz2") data_path))) /\
  (isfile fs data_path = false -> isdir fs data_path = true ->
   isfile fs (Py.path_join data_path decompressed_file_name) = true ->
   files_to_process fs data_path
   = [Py.path_join data_path decompressed_file_name] /\
   load_wikipedia_articles json_loads fs data_path
   = articles_of json_loads
       (before_failure json_loads
          (open_text fs false
             (Py.path_join data_path decompressed_file_name)))).
Proof.
  split.
  - intros Hfile. apply load_single_file. unfold candidate_files.
    now rewrite Hfile.
  - intros Hfile Hdir Hsingle.
    rewrite <- (decompressed_file_is_not_bz2 data_path).
    apply load_single_file. unfold candidate_files.
    now rewrite Hfile, Hdir, Hsingle.
Qed.

Lemma single_file_modes_witness :
  (let fs := {| exists_ := fun p => (p =? "wiki.bz2")%string;
                isfile := fun p => (p =? "wiki.bz2")%string;
                isdir := fun _ => false;
                walk := fun _ => [];
                open_text := fun b _ =>
                  if b then Example.stream [Example.line_a]
                  else [ReadError OSError] |} in
   files_to_process fs "wiki.bz2" = ["wiki.bz2"] /\
   load_wikipedia_articles Example.json_loads fs "wiki.bz2"
   = articles_of Example.json_loads
       (before_failure Example.json_loads
          (open_text fs (Py.endswith "wiki.bz2" ".bz2") "wiki.bz2"))) /\
  (let fs := Example.abc_dir in
   files_to_process fs Example.data_path
   = [Py.path_join Example.data_path decompressed_file_name] /\
   load_wikipedia_articles Example.json_loads fs Example.data_path
   = articles_of Example.json_loads
       (before_failure Example.json_loads
          (open_text fs false
             (Py.path_join Example.data_path decompressed_file_name)))).
Proof.
  split.
  - apply (single_file_modes Example.json_loads). reflexivity.
  - apply (single_file_modes Example.json_loads Example.abc_dir
             Example.data_path); vm_compute; reflexivity.
Defined.

Lemma in_bz2_chunks (triples : list (string * list string * list string))
  (f : string) :
  In f (bz2_chunks triples) <->
  exists root dirs files file,
    In (root, dirs, files) triples /\ In file files /\
    Py.endswith file ".bz2" = true /\ f = Py.path_join root file.
Proof.
  unfold bz2_chunks. rewrite in_flat_map. split.
  - intros ([[root dirs] files] & Ht & Hf).
    apply in_map_iff in Hf. destruct Hf as (file & <- & Hfile).
    apply filter_In in Hfile. destruct Hfile as [Hin Hbz].
    now exists root, dirs, files, file.
  - intros (root & dirs & files & file & Ht & Hin & Hbz & ->).
    exists (root, dirs, files). split; [exact Ht|].
    apply in_map, filter_In. now split.
Qed.

(** X4: when the data path is a directory without the decompressed file,
    the files read are exactly the files of the walk whose name ends with
    [.bz2], each under the root the walk lists it in; the other files are
    never opened, and every file read is read through [bz2]. *)
Theorem chunk_mode_reads_the_bz2_files
  (fs : filesystem) (data_path : string) :
  isfile fs data_path = false -> isdir fs data_path = true ->
  isfile fs (Py.path_join data_path decompressed_file_name) = false ->
  forall f,
    (In f (files_to_process fs data_path) <->
     exists root dirs files file,
       In (root, dirs, files) (walk fs data_path) /\ In file files /\
       Py.endswith file ".bz2" = true /\ f = Py.path_join root file) /\
    (In f (files_to_process fs data_path) ->
     stream_of fs f = open_text fs true f).
Proof.
  intros Hfile Hdir Hsingle f.
  assert (Hin : In f (files_to_process fs data_path)
                <-> In f (bz2_chunks (walk fs data_path))).
  { unfold files_to_process, candidate_files.
    rewrite Hfile, Hdir, Hsingle.
    split; apply Permutation_in;
      [apply sort_perm|apply Permutation_sym, sort_perm]. }
  split.
  - rewrite Hin. apply in_bz2_chunks.
  - intros H. apply Hin, in_bz2_chunks in H.
    destruct H as (root & dirs & files & file & _ & _ & Hbz & ->).
    unfold stream_of. now rewrite (endswith_path_join_true root file _ Hbz).
Qed.

Lemma chunk_mode_reads_the_bz2_files_witness :
  (In "data/s2/b.bz2" (files_to_process Example.shards_one "data") <->
   exists root dirs files file,
     In (root, dirs, files) (walk Example.shards_one "data") /\
     In file files /\ Py.endswith file ".bz2" = true /\
     "data/s2/b.bz2" = Py.path_join root file) /\
  (In "data/s2/b.bz2" (files_to_process Example.shards_one "data") ->
   stream_of Example.shards_one "data/s2/b.bz2"
   = open_text Example.shards_one true "data/s2/b.bz2").
Proof.
  apply (chunk_mode_reads_the_bz2_files Example.shards_one "data");
    reflexivity.
Defined.

(** ** The text of a record *)

Lemma sentences_of_strings (ss : list string) :
  flat_map sentences_of_item (map PStr ss) = ss.
Proof. induction ss as [|s ss IH]; simpl; [reflexivity|now rewrite IH]. Qed.

Lemma sentences_of_nested_strings (sss : list (list string)) :
  flat_map sentences_of_item (map (fun ss => PList (map PStr ss)) sss)
  = List.concat sss.
Proof.
  induction sss as [|ss sss IH]; simpl; [reflexivity|].
  rewrite IH. f_equal.
  induction ss as [|s ss IHs]; simpl; [reflexivity|now rewrite IHs].
Qed.

(** X5: for a record with a title, a [text] that is a list of strings
    gives these strings joined by single spaces; a list of lists of
    strings gives the same text as the flat list of all their strings; a
    record without [text] gives the empty text. *)
Theorem text_of_the_record_schema
  (d : list (string * pyval)) (t : pyval)
  (ss : list string) (sss : list (list string)) :
  Py.lookup "title" d = Some t ->
  (Py.lookup "text" d = Some (PList (map PStr ss)) ->
   article_of_record (PDict d)
   = Ok (Article.make (id_of d t) t (String.concat " " ss))) /\
  (Py.lookup "text" d
   = Some (PList (map (fun l => PList (map PStr l)) sss)) ->
   article_of_record (PDict d)
   = Ok (Article.make (id_of d t) t (String.concat " " (List.concat sss)))) /\
  (Py.lookup "text" d = None ->
   article_of_record (PDict d) = Ok (Article.make (id_of d t) t "")).
Proof.
  intros Ht. rewrite article_of_record_dict, Ht. unfold text_data_of, Py.join.
  repeat split; intros ->; simpl Py.iter; cbv iota beta.
  - now rewrite sentences_of_strings.
  - now rewrite sentences_of_nested_strings.
  - reflexivity.
Qed.

Lemma text_of_the_record_schema_witness :
  article_of_record
    (PDict [("title", PStr "T"); ("text", PList (map PStr ["p"; "q"; "r"]))])
  = Ok (Article.make (PStr "T") (PStr "T") "p q r") /\
  article_of_record
    (PDict [("title", PStr "T");
            ("text", PList (map (fun l => PList (map PStr l))
                                [["p"]; []; ["q"; "r"]]))])
  = Ok (Article.make (PStr "T") (PStr "T") "p q r") /\
  article_of_record (PDict [("id", PInt 3); ("title", PStr "T")])
  = Ok (Article.make (PInt 3) (PStr "T") "").
Proof.
  split; [|split].
  - apply (text_of_the_record_schema
             [("title", PStr "T"); ("text", PList (map PStr ["p"; "q"; "r"]))]
             (PStr "T") ["p"; "q"; "r"] []); reflexivity.
  - apply (text_of_the_record_schema
             [("title", PStr "T");
              ("text", PList (map (fun l => PList (map PStr l))
                                  [["p"]; []; ["q"; "r"]]))]
             (PStr "T") [] [["p"]; []; ["q"; "r"]]); reflexivity.
  - apply (text_of_the_record_schema
             [("id", PInt 3); ("title", PStr "T")] (PStr "T") [] []);
      reflexivity.
Defined.

(** ** The embedding loop *)

Lemma nth_error_seq_map {A : Type} (h : nat -> A) (m j : nat) :
  nth_error (map h (seq 0 m)) j = if j <? m then Some (h j) else None.
Proof.
  rewrite nth_error_map.
  destruct (Nat.ltb_spec j m) as [Hlt|Hge].
  - rewrite (nth_error_nth' (seq 0 m) 0) by now rewrite length_seq.
    now rewrite seq_nth.
  - assert (H : nth_error (seq 0 m) j = None)
      by (apply nth_error_None; now rewrite length_seq).
    now rewrite H.
Qed.

Lemma range_below_stop (n cs : nat) :
  1 <= cs -> 1 <= n -> ((n + cs - 1) / cs - 1) * cs < n.
Proof.
  intros Hcs Hn.
  pose proof (Nat.div_mod_eq (n + cs - 1) cs) as Hdm.
  pose proof (Nat.mod_upper_bound (n + cs - 1) cs ltac:(lia)) as Hlt.
  nia.
Qed.

(** X6: for a chunk size of at least one, the embedding function is
    called once per chunk, on chunks that are never empty and never longer
    than the chunk size, all but the last of exactly that size, and that
    put one after the other are the texts; there are
    ceil(len(texts) / chunk_size) of them. *)
Theorem chunks_partition_the_texts
  (model : SentenceTransformer) (texts : list string) (cs : nat) :
  1 <= cs ->
  let chunks := chunks_of texts cs in
  embed_chunks model texts cs = map (encode model) chunks /\
  List.concat chunks = texts /\
  List.length chunks = (List.length texts + cs - 1) / cs /\
  forall j c,
    nth_error chunks j = Some c ->
    1 <= List.length c <= cs /\
    (S j < List.length chunks -> List.length c = cs).
Proof.
  intros Hcs chunks. subst chunks. unfold chunks_of, embed_chunks.
  split; [now rewrite map_map|].
  split; [rewrite <- flat_map_concat_map; now apply chunks_concat|].
  unfold Py.range. rewrite !length_map, length_seq.
  split; [reflexivity|].
  intros j c Hj. rewrite map_map, nth_error_seq_map in Hj.
  set (n := List.length texts) in *.
  set (m := (n + cs - 1) / cs) in *.
  destruct (Nat.ltb_spec j m) as [Hlt|Hge]; [|discriminate].
  injection Hj as <-.
  rewrite slice_chunk, length_firstn, length_skipn. fold n.
  assert (Hn : 1 <= n).
  { destruct n; [|lia]. unfold m in Hlt. simpl in Hlt.
    replace (cs - 0 - 1) with (cs - 1) in Hlt by lia.
    rewrite Nat.div_small in Hlt by lia. lia. }
  pose proof (range_below_stop n cs Hcs Hn) as Hlast. fold m in Hlast.
  split; [nia|]. intros Hnext. nia.
Qed.

Lemma chunks_partition_the_texts_witness :
  let chunks := chunks_of ["p"; "q"; "r"; "s"; "t"] 2 in
  embed_chunks Example.plane_model ["p"; "q"; "r"; "s"; "t"] 2
  = map (encode Example.plane_model) chunks /\
  List.concat chunks = ["p"; "q"; "r"; "s"; "t"] /\
  List.length chunks = (5 + 2 - 1) / 2 /\
  forall j c,
    nth_error chunks j = Some c ->
    1 <= List.length c <= 2 /\
    (S j < List.length chunks -> List.length c = 2).
Proof.
  apply (chunks_partition_the_texts Example.plane_model
           ["p"; "q"; "r"; "s"; "t"] 2).
  lia.
Defined.

Lemma forallb_false_witness {A : Type} (f : A -> bool) (l : list A) :
  forallb f l = false -> exists x, In x l /\ f x = false.
Proof.
  induction l as [|x l IH]; simpl; [discriminate|].
  destruct (f x) eqn:E; simpl.
  - intros H. destruct (IH H) as (y & Hy & Hf). exists y. auto.
  - intros _. exists x. auto.
Qed.

Lemma chunks_of_nonempty (texts : list string) (cs : nat) :
  1 <= cs -> texts <> [] -> chunks_of texts cs <> [].
Proof.
  intros Hcs Hne H. unfold chunks_of in H. apply map_eq_nil in H.
  revert H. apply range_nonempty; [exact Hcs|].
  destruct texts; [congruence|simpl; lia].
Qed.

(** X7: for texts that are not empty and a chunk size of at least one, the
    embedding stage either finds one width on all the chunk outputs and
    returns their rows stacked in chunk order under that width, or finds
    two outputs of different widths and ends the run with numpy's
    [ValueError]; it does not exit. *)
Theorem embedding_stage_stacks_or_raises
  (model : SentenceTransformer) (texts : list string) (cs : nat) :
  1 <= cs -> texts <> [] ->
  let outputs := map (encode model) (chunks_of texts cs) in
  (exists w,
     (forall a, In a outputs -> ncols a = w) /\
     generate_embeddings model texts cs
     = Go {| ncols := w; rows := flat_map rows outputs |}) \/
  ((exists a b, In a outputs /\ In b outputs /\ ncols a <> ncols b) /\
   generate_embeddings model texts cs = Stop (Uncaught ValueError)).
Proof.
  intros Hcs Hne outputs.
  assert (Hout : embed_chunks model texts cs = outputs)
    by (unfold embed_chunks, outputs, chunks_of; now rewrite map_map).
  assert (Hne' : outputs <> []).
  { unfold outputs. intros H. apply map_eq_nil in H.
    now apply (chunks_of_nonempty texts cs). }
  unfold generate_embeddings.
  destruct (Nat.eqb_spec cs 0) as [->|_]; [lia|].
  rewrite Hout. destruct outputs as [|o rest] eqn:E; [congruence|].
  unfold Numpy.vstack.
  destruct (forallb (fun b => ncols b =? ncols o) rest) eqn:Hall.
  - left. exists (ncols o). split; [|reflexivity].
    intros a [<-|Ha]; [reflexivity|].
    rewrite forallb_forall in Hall. now apply Nat.eqb_eq, Hall.
  - right. split; [|reflexivity].
    destruct (forallb_false_witness _ _ Hall) as (b & Hb & Hw).
    exists o, b. repeat split; [now left|now right|].
    apply Nat.eqb_neq in Hw. congruence.
Qed.

Lemma embedding_stage_stacks_or_raises_witness :
  let outputs := map (encode Example.uneven_model) (chunks_of ["x"; "y"] 1) in
  (exists w,
     (forall a, In a outputs -> ncols a = w) /\
     generate_embeddings Example.uneven_model ["x"; "y"] 1
     = Go {| ncols := w; rows := flat_map rows outputs |}) \/
  ((exists a b, In a outputs /\ In b outputs /\ ncols a <> ncols b) /\
   generate_embeddings Example.uneven_model ["x"; "y"] 1
   = Stop (Uncaught ValueError)).
Proof.
  apply (embedding_stage_stacks_or_raises Example.uneven_model ["x"; "y"] 1).
  - lia.
  - discriminate.
Defined.

(** ** The index and what is saved *)

(** X8: whatever the embedding model returns, a run that saves an index
    saves with it the matrix the index was filled from and the ids of all
    the loaded articles, in loading order: the index has the width of the
    matrix and holds exactly its rows, at least one; the rows are the
    outputs of the chunks, stacked in chunk order; the chunk size is not
    zero and at least one article was loaded. *)
Theorem saved_index_holds_the_saved_matrix
  (json_loads : string -> result pyval) (fs : filesystem)
  (model : SentenceTransformer) (data_path query : string) (cs k : nat)
  (idx : Faiss.IndexFlatL2) :
  let r := main json_loads fs model data_path cs query k in
  let articles := load_wikipedia_articles json_loads fs data_path in
  wikipedia_faiss_index_bin (saved r) = Some idx ->
  exists matrix,
    wikipedia_corpus_embeddings_npy (saved r) = Some matrix /\
    wikipedia_corpus_ids_json (saved r) = Some (map Article.id articles) /\
    index r = Some idx /\
    articles <> [] /\ 1 <= cs /\
    Faiss.d idx = ncols matrix /\
    Faiss.xb idx = rows matrix /\
    1 <= Faiss.ntotal idx /\
    rows matrix
    = flat_map (fun c => rows (encode model c))
               (chunks_of (map Article.text articles) cs).
Proof.
  intros r articles. subst r articles. unfold main.
  destruct (exists_ fs data_path); cbn [negb]; [|discriminate].
  destruct (load_wikipedia_articles json_loads fs data_path) as [|a0 l];
    [discriminate|].
  set (articles := a0 :: l).
  destruct (generate_embeddings model (map Article.text articles) cs)
    as [matrix|t] eqn:G; [|discriminate].
  destruct (generate_embeddings_rows _ _ _ _ G) as [Hcs Hrows].
  unfold build_faiss_index.
  destruct (rows matrix) as [|row0 rest] eqn:Erows; [discriminate|].
  cbn [List.length Nat.ltb Nat.leb].
  unfold Faiss.add, Faiss.new; cbn [Faiss.d Faiss.xb].
  rewrite Nat.eqb_refl.
  cbn [saved save_artifacts wikipedia_corpus_ids_json
       wikipedia_corpus_embeddings_npy wikipedia_faiss_index_bin index].
  intros [= <-]. exists matrix.
  repeat split; try reflexivity.
  - subst articles. discriminate.
  - exact Hcs.
  - unfold Faiss.ntotal; cbn [Faiss.xb]. rewrite Erows. simpl. lia.
  - rewrite Erows, Hrows. unfold chunks_of.
    generalize (Py.range (List.length (map Article.text articles)) cs) as il.
    induction il as [|i il IH]; [reflexivity|].
    cbn [flat_map map]. f_equal. exact IH.
Qed.

Lemma saved_index_holds_the_saved_matrix_witness :
  let r := main Example.json_loads Example.abc_dir Example.plane_model
             Example.data_path 2 "q" 2 in
  let articles := load_wikipedia_articles Example.json_loads Example.abc_dir
                    Example.data_path in
  exists matrix,
    wikipedia_corpus_embeddings_npy (saved r) = Some matrix /\
    wikipedia_corpus_ids_json (saved r) = Some (map Article.id articles) /\
    index r
    = Some {| Faiss.d := 2;
              Faiss.xb := [float_vector [0; 0]%Z; float_vector [1; 0]%Z;
                           float_vector [5; 5]%Z] |} /\
    articles <> [] /\ 1 <= 2 /\
    2 = ncols matrix /\
    [float_vector [0; 0]%Z; float_vector [1; 0]%Z; float_vector [5; 5]%Z]
    = rows matrix /\
    1 <= 3 /\
    rows matrix
    = flat_map (fun c => rows (encode Example.plane_model c))
               (chunks_of (map Article.text articles) 2).
Proof.
  apply (saved_index_holds_the_saved_matrix Example.json_loads Example.abc_dir
           Example.plane_model Example.data_path "q" 2 2
           {| Faiss.d := 2;
              Faiss.xb := [float_vector [0; 0]%Z; float_vector [1; 0]%Z;
                           float_vector [5; 5]%Z] |}).
  vm_compute; reflexivity.
Defined.

(** ** The search and the report *)










(** ** The title of a rank *)

Lemma eq_string_id (s : string) (v : pyval) :
  Py.eq v (PStr s) = true <-> v = PStr s.
Proof.
  split.
  - destruct v; simpl; try discriminate.
    intros H. apply String.eqb_eq in H. now subst.
  - intros ->. simpl. apply String.eqb_refl.
Qed.

(** X11: the title printed with a string id is the title of the first
    loaded article that has this id, never "Unknown" when some article has
    it; when no two articles share an id, it is the title of the article
    itself. *)
Theorem rank_title_is_the_first_with_that_id
  (articles : list Article.t) (a : Article.t) (s : string) :
  In a articles -> Article.id a = PStr s ->
  exists before first after,
    articles = before ++ first :: after /\
    Article.id first = PStr s /\
    (forall b, In b before -> Article.id b <> PStr s) /\
    title_of articles (PStr s) = Article.title first /\
    (NoDup (map Article.id articles) -> first = a).
Proof.
  intros Hin Hid. unfold title_of.
  induction articles as [|x articles IH]; [contradiction|].
  simpl. destruct (Py.eq (Article.id x) (PStr s)) eqn:E.
  - apply eq_string_id in E. exists [], x, articles.
    repeat split; try assumption; try reflexivity.
    + intros b [].
    + intros Hnd. destruct Hin as [->|Hin]; [reflexivity|].
      simpl in Hnd. apply NoDup_cons_iff in Hnd. destruct Hnd as [Hx _].
      exfalso. apply Hx. rewrite E, <- Hid. now apply in_map.
  - assert (Hx : Article.id x <> PStr s).
    { intros H. apply eq_string_id in H. congruence. }
    destruct Hin as [->|Hin]; [congruence|].
    destruct (IH Hin) as (before & first & after & -> & Hf & Hb & Ht & Hu).
    exists (x :: before), first, after.
    repeat split; try assumption; try reflexivity.
    + intros b [<-|Hb']; [exact Hx|now apply Hb].
    + intros Hnd. apply Hu. simpl in Hnd. now apply NoDup_cons_iff in Hnd.
Qed.

Lemma rank_title_is_the_first_with_that_id_witness :
  exists before first after,
    [Example.article_a; Example.article_b; Example.article_c]
    = before ++ first :: after /\
    Article.id first = PStr "b" /\
    (forall b, In b before -> Article.id b <> PStr "b") /\
    title_of [Example.article_a; Example.article_b; Example.article_c]
      (PStr "b") = Article.title first /\
    (NoDup (map Article.id
              [Example.article_a; Example.article_b; Example.article_c]) ->
     first = Example.article_b).
Proof.
  apply (rank_title_is_the_first_with_that_id
           [Example.article_a; Example.article_b; Example.article_c]
           Example.article_b "b").
  - right. left. reflexivity.
  - reflexivity.
Defined.

(** ** Records that are not usable *)

(** X12: a non-blank line that decodes to something that is not a JSON
    object ends its file with an [AttributeError], and one that decodes to
    an object whose [text] is null, a boolean or a number ends it with a
    [TypeError], with or without a title: in both cases the articles read
    so far are kept and the lines after it are not read. *)
Theorem record_that_is_no_object_or_has_no_iterable_text_ends_its_file
  (json_loads : string -> result pyval) (l : string) (doc : pyval)
  (post : list read_event) (articles : list Article.t) :
  (Py.strip l =? "")%string = false ->
  json_loads (Py.strip l) = Ok doc ->
  ((forall d, doc <> PDict d) ->
   read_file json_loads (Line l :: post) articles
   = (articles, Some AttributeError)) /\
  (forall d v, doc = PDict d -> Py.lookup "text" d = Some v ->
     (v = PNone \/ (exists b, v = PBool b) \/ (exists n, v = PInt n)
      \/ (exists x, v = PFloat x)) ->
     read_file json_loads (Line l :: post) articles
     = (articles, Some TypeError)).
Proof.
  intros Hblank Hdoc. split.
  - intros Hnot. simpl. rewrite process_line_cases.
    now rewrite Hblank, Hdoc, (article_of_record_not_dict doc Hnot).
  - intros d v -> Htext Hv. simpl. rewrite process_line_cases.
    rewrite Hblank, Hdoc, article_of_record_dict. unfold text_data_of.
    rewrite Htext.
    destruct Hv as [->|[[b ->]|[[n ->]|[x ->]]]]; reflexivity.
Qed.

Lemma record_that_is_no_object_or_has_no_iterable_text_ends_its_file_witness :
  let null_text :=
    Example.jobj [("title", Example.jstr "T"); ("text", "null")] in
  let loads := fun s : string =>
                 if (s =? "[1]")%string then Ok (PList [PInt 1])
                 else if (s =? null_text)%string
                      then Ok (PDict [("title", PStr "T"); ("text", PNone)])
                      else Raise JSONDecodeError in
  read_file loads (Line "[1]" :: Example.stream [Example.line_a])
    [Example.article_b]
  = ([Example.article_b], Some AttributeError) /\
  read_file loads (Line null_text :: Example.stream [Example.line_a])
    [Example.article_b]
  = ([Example.article_b], Some TypeError).
Proof.
  split.
  - apply (record_that_is_no_object_or_has_no_iterable_text_ends_its_file
             _ "[1]" (PList [PInt 1])); try reflexivity.
    intros d H; discriminate H.
  - apply (record_that_is_no_object_or_has_no_iterable_text_ends_its_file
             _ (Example.jobj [("title", Example.jstr "T"); ("text", "null")])
             (PDict [("title", PStr "T"); ("text", PNone)])
             (Example.stream [Example.line_a]) [Example.article_b]
             eq_refl eq_refl)
      with (d := [("title", PStr "T"); ("text", PNone)]) (v := PNone);
      try reflexivity.
    now left.
Defined.
